(** * pyccel: typed builtin nodes and the Fortran-to-C binding nodes

    A shallow embedding of [pyccel/ast/builtins.py] and
    [pyccel/ast/bind_c.py].  Python constructors ([__new__] / [__init__])
    become functions; a constructor that may raise returns a [result];
    the process-wide [pyccel_stage] flag becomes an explicit argument. *)

From Stdlib Require Import ZArith Ascii Floats.SpecFloat.
From stdpp Require Import base strings list pretty gmap stringmap.

Set Warnings "-register-all".

Local Open Scope string_scope.
Local Open Scope list_scope.
Local Open Scope Z_scope.

(** ** Exceptions and fallible constructors *)

Inductive exception : Type :=
| TypeError (msg : string)
| ValueError (msg : string)
| AttributeError
| IndexError
| OverflowError
| PyccelError (msg : string).

Inductive result (A : Type) : Type :=
| Ok (a : A)
| Raise (e : exception).
Arguments Ok {A} a.
Arguments Raise {A} e.

Definition bind {A B} (m : result A) (k : A -> result B) : result B :=
  match m with
  | Ok a => k a
  | Raise e => Raise e
  end.

Notation "'let?' x := m 'in' k" := (bind m (fun x => k))
  (at level 10, x name, m at level 100, k at level 200).

(** [all(f(a) for a in l)]: stops at the first element that is false,
    and at the first exception. *)
Fixpoint all_m {A} (f : A -> result bool) (l : list A) : result bool :=
  match l with
  | [] => Ok true
  | a :: l' => let? b := f a in if b then all_m f l' else Ok false
  end.

(** [[f(a) for a in l]] where [f] may raise. *)
Fixpoint map_m {A B} (f : A -> result B) (l : list A) : result (list B) :=
  match l with
  | [] => Ok []
  | a :: l' => let? b := f a in let? bs := map_m f l' in Ok (b :: bs)
  end.

(** ** Datatypes ([pyccel.ast.datatypes], imported by both files) *)

Inductive datatype : Type :=
| NativeBool
| NativeInteger
| NativeFloat
| NativeComplex
| NativeGeneric
| NativeHomogeneousTuple
| NativeHomogeneousList
| NativeInhomogeneousTuple (dtypes : list datatype)
| BindCPointer.

Fixpoint datatype_eqb (a b : datatype) : bool :=
  match a, b with
  | NativeBool, NativeBool
  | NativeInteger, NativeInteger
  | NativeFloat, NativeFloat
  | NativeComplex, NativeComplex
  | NativeGeneric, NativeGeneric
  | NativeHomogeneousTuple, NativeHomogeneousTuple
  | NativeHomogeneousList, NativeHomogeneousList
  | BindCPointer, BindCPointer => true
  | NativeInhomogeneousTuple l1, NativeInhomogeneousTuple l2 =>
      (fix go (l1 l2 : list datatype) : bool :=
         match l1, l2 with
         | [], [] => true
         | x :: xs, y :: ys => datatype_eqb x y && go xs ys
         | _, _ => false
         end) l1 l2
  | _, _ => false
  end.

(** The process-wide stage marker: type attributes are only derived
    outside the syntactic stage. *)
Inductive PyccelStage : Type := Syntactic | Semantic.

Definition is_syntactic (s : PyccelStage) : bool :=
  match s with Syntactic => true | Semantic => false end.

(** Memory layout order: ['C'] or ['F']; Python's [None] is [None]. *)
Inductive layout : Type := order_C | order_F.

Definition layout_eqb (a b : option layout) : bool :=
  match a, b with
  | None, None | Some order_C, Some order_C | Some order_F, Some order_F => true
  | _, _ => false
  end.

(** The attributes every [TypedAstNode] exposes.  A shape is [None] or
    a tuple whose entries are size expressions or [None] (unknown). *)
Record typesig (N : Type) : Type := TypeSig {
  dtype : datatype;
  precision : Z;
  rank : nat;
  shape : option (list (option N));
  order : option layout;
  class_type : option datatype
}.
Arguments TypeSig {N}.
Arguments dtype {N}.
Arguments precision {N}.
Arguments rank {N}.
Arguments shape {N}.
Arguments order {N}.
Arguments class_type {N}.

(** Class-level attributes of a scalar builtin:
    [_precision = -1], [_rank = 0], [_shape = None], [_order = None]. *)
Definition scalar_sig {N} (d : datatype) (p : Z) : typesig N :=
  TypeSig d p 0%nat None None (Some d).

(** A Python value that is an [int], an AST node, or [None]. *)
Inductive length_value (N : Type) : Type :=
| IntLength (n : Z)
| ExprLength (e : N)
| NoLength.
Arguments IntLength {N} n.
Arguments ExprLength {N} e.
Arguments NoLength {N}.

(** Modelled from the spec: [variable.py] is not among the sources.
    A [Variable] is a typed node with a name and an optional flag;
    [tuple_kind] is the [is_homogeneous] attribute of the tuple
    variables ([InhomogeneousTupleVariable] has it false), absent on a
    plain variable. *)
Record variable (N : Type) : Type := Variable_ {
  name : string;
  ty : typesig N;
  is_optional : bool;
  tuple_kind : option bool
}.
Arguments Variable_ {N}.
Arguments name {N}.
Arguments ty {N}.
Arguments is_optional {N}.
Arguments tuple_kind {N}.

(** ** Library flags ([pyccel/compilers/default_compilers.py]) *)

(** A Python string as the list of its characters; the functions
    below only compare characters with those of ASCII literals. *)
Definition lit (s : string) : list ascii := String.list_ascii_of_string s.

(** [s.startswith(p)] and [s.endswith(p)] *)
Definition startswith (s p : list ascii) : bool := bool_decide (p `prefix_of` s).
Definition endswith (s p : list ascii) : bool := bool_decide (p `suffix_of` s).

(** [s[start:stop]] for indices that are not negative *)
Definition slice (s : list ascii) (start stop : nat) : list ascii :=
  take (stop - start) (drop start s).

(** [change_to_lib_flag(lib)].  [end] is never negative: a suffix is
    only subtracted from the length of a string that ends with it. *)
Definition change_to_lib_flag (lib : list ascii) : list ascii :=
  if startswith lib (lit "lib") then
    let end_ := length lib in
    let end_ := if endswith lib (lit ".a") then (end_ - 2)%nat else end_ in
    let end_ := if endswith lib (lit ".so") then (end_ - 3)%nat else end_ in
    let end_ := if endswith lib (lit ".dylib") then (end_ - 5)%nat else end_ in
    lit "-l" ++ slice lib 3 end_
  else lib.

(** The last branch of the module's search for the Python library:
    [ldshared], [library], [libpl] and [libdir] are the words of the
    configuration variables [LDSHARED], [LIBRARY], [LIBPL], [LIBDIR]. *)
Definition linker_flags (ldshared library : list (list ascii)) : list (list ascii) :=
  map change_to_lib_flag (ldshared ++ tail library).

(** [[l[2:] for l in linker_flags if l.startswith('-l')]] *)
Definition python_libs (flags : list (list ascii)) : list (list ascii) :=
  map (drop 2) (filter (fun l => startswith l (lit "-l") = true) flags).

(** [[l[2:] for l in linker_flags if l.startswith('-L')] + libpl + libdir] *)
Definition python_libdirs (flags libpl libdir : list (list ascii)) : list (list ascii) :=
  map (drop 2) (filter (fun l => startswith l (lit "-L") = true) flags)
  ++ libpl ++ libdir.

(** [p in s] for two strings *)
Fixpoint contains (s p : list ascii) : bool :=
  startswith s p || match s with [] => false | _ :: s' => contains s' p end.

(** What the module stores under [python_info['python']] to name the
    Python library: the key [dependencies], or the keys [libs] and
    [libdirs]. *)
Inductive python_library : Type :=
| Dependencies (files : list (list ascii))
| LibsAndDirs (libs libdirs : list (list ascii)).

(** The search for the Python library.  [platform] is [sys.platform],
    [globbed] the result of the one call of [glob.glob] that is run,
    [version] the configuration variable [VERSION], and the other
    arguments the words of [installed_base], [LDSHARED], [LIBRARY],
    [LIBPL] and [LIBDIR]. *)
Definition find_python_library (platform : string) (globbed : list (list ascii))
    (version : list ascii) (installed_base ldshared library libpl libdir : list (list ascii))
  : python_library :=
  if String.eqb platform "win32" then
    let python_libs := globbed in
    match python_libs with
    | _ :: _ => Dependencies python_libs
    | [] => LibsAndDirs [lit "python" ++ version] installed_base
    end
  else
    let python_shared_libs := globbed in
    let shared_ending := if String.eqb platform "darwin" then lit ".dylib" else lit ".so" in
    let possible_shared_lib :=
      filter (fun l => contains l shared_ending = true) python_shared_libs in
    let possible_static_lib :=
      filter (fun l => contains l (lit ".a") = true) python_shared_libs in
    match possible_shared_lib with
    | _ :: _ =>
        let possible_shared_lib :=
          if (1 <? length possible_shared_lib)%nat then
            let preferred_lib :=
              filter (fun l => endswith l shared_ending = true) possible_shared_lib in
            match preferred_lib with
            | _ :: _ => preferred_lib
            | [] => possible_shared_lib
            end
          else possible_shared_lib in
        Dependencies (take 1 possible_shared_lib)
    | [] =>
        match possible_static_lib with
        | _ :: _ =>
            let possible_static_lib :=
              if (1 <? length possible_static_lib)%nat then
                let preferred_lib :=
                  filter (fun l => endswith l (lit ".a") = true) possible_static_lib in
                match preferred_lib with
                | _ :: _ => preferred_lib
                | [] => possible_static_lib
                end
              else possible_static_lib in
            Dependencies (take 1 possible_static_lib)
        | [] =>
            let linker_flags := linker_flags ldshared library in
            LibsAndDirs (python_libs linker_flags) (python_libdirs linker_flags libpl libdir)
        end
    end.

(** [.dylib] on macOS, [.so] elsewhere. *)
Definition shared_ending (platform : string) : list ascii :=
  if String.eqb platform "darwin" then lit ".dylib" else lit ".so".

(** ** Instances used in the worked examples *)

(** Python numbers: an [int] of any size, or a [float], an IEEE 754
    double ([binary64]: 53 bits of precision, exponents below 1024)
    with its signed zeros, infinities and NaN. *)
Inductive pynum : Type :=
| PyInt (z : Z)
| PyFloat (f : spec_float).

(** The double nearest to an integer, ties to even; infinite when the
    integer is too large. *)
Definition double_of_Z (z : Z) : spec_float := binary_normalize 53 1024 z 0 false.

(** The conversion of an operand to a double: an [int] too large for
    a double is an [OverflowError]. *)
Definition pynum_double (x : pynum) : result spec_float :=
  match x with
  | PyInt z =>
      match double_of_Z z with
      | S754_infinity _ => Raise OverflowError
      | f => Ok f
      end
  | PyFloat f => Ok f
  end.

(** [float(x)] *)
Definition pynum_float (x : pynum) : result pynum :=
  let? f := pynum_double x in Ok (PyFloat f).

(** [x + y] and [x - y]: exact on two [int]s, on doubles (rounded to
    nearest, ties to even) as soon as one operand is a [float]. *)
Definition pynum_add (x y : pynum) : result pynum :=
  match x, y with
  | PyInt a, PyInt b => Ok (PyInt (a + b))
  | _, _ =>
      let? a := pynum_double x in
      let? b := pynum_double y in
      Ok (PyFloat (SFadd 53 1024 a b))
  end.

Definition pynum_sub (x y : pynum) : result pynum :=
  match x, y with
  | PyInt a, PyInt b => Ok (PyInt (a - b))
  | _, _ =>
      let? a := pynum_double x in
      let? b := pynum_double y in
      Ok (PyFloat (SFsub 53 1024 a b))
  end.

(** A final precision that resolves the default marker [-1] to 8. *)
Definition final_precision_8 (d : datatype) (p : Z) : Z :=
  if p =? -1 then 8 else p.

(** Operator nodes left without type information. *)
Definition operator_untyped {N} (n : N) : typesig N :=
  TypeSig NativeGeneric 0 0%nat None None None.

(** Names for the datatypes, in the manner of the [_name] attribute
    that [BindCPointer] shows. *)
Definition datatype_name (d : datatype) : string :=
  match d with
  | NativeBool => "bool"
  | NativeInteger => "int"
  | NativeFloat => "float"
  | NativeComplex => "complex"
  | NativeGeneric => "generic"
  | NativeHomogeneousTuple | NativeHomogeneousList
  | NativeInhomogeneousTuple _ => "tuple"
  | BindCPointer => "bindcpointer"
  end.

(** Modelled from the spec: the scope manager is not among the
    sources.  [new_temporary(kind, name)] allocates a fresh,
    collision-free name: with the scope as the set of names in use, a
    requested name that is not in use is granted, otherwise a fresh
    variant of it is; the name is then in use. *)
Definition grant_name {N} (used : stringset) (d : datatype) (n : string)
  : variable N * stringset :=
  let n' := fresh_string_of_set n used in
  (Variable_ n' (scalar_sig d (-1)) false None, {[ n' ]} ∪ used).

Definition unused (used : stringset) (n : string) : Prop := n ∉ used.

(** [str.lower] on ASCII letters. *)
Definition lower_ascii (c : ascii) : ascii :=
  let n := nat_of_ascii c in
  if (65 <=? n)%nat && (n <=? 90)%nat then ascii_of_nat (n + 32) else c.

Fixpoint string_lower (s : string) : string :=
  match s with
  | EmptyString => EmptyString
  | String c s' => String (lower_ascii c) (string_lower s')
  end.

Section Pyccel.

(** ** The builtin nodes ([pyccel/ast/builtins.py]) *)

(** Python numbers held by float and complex literals.  Their
    arithmetic is the interpreter's, not the repository's: [py_int]
    embeds an [int], [py_float] is [float(...)], [py_add] and [py_sub]
    are [+] and [-].  Each of the three may raise ([OverflowError] for
    an [int] too large to become a [float]). *)
Context {num : Type}.
Variable py_int : Z -> num.
Variable py_float : num -> result num.
Variables py_add py_sub : num -> num -> result num.

(** One constructor per node class.  Nodes whose classes live in
    [literals.py], [variable.py] and [operators.py] carry what the two
    files read from them.  A node built by [PythonTuple], [PythonList],
    [PythonAbs], [PythonMax] or [PythonMin] stores the attributes its
    [__init__] assigned; [None] means the slots were left unset. *)
Inductive node : Type :=
(* literals.py *)
| LiteralInteger (python_value : Z) (prec : Z)
| LiteralFloat (python_value : num) (prec : Z)
| LiteralComplex (real imag : num) (prec : Z)
| Nil
(* variable.py *)
| Var (v : variable node)
(* operators.py *)
| PyccelAdd (a b : node)
| PyccelMul (a b : node)
| PyccelAnd (a b : node)
| PyccelIsNot (a b : node)
(* builtins.py *)
| PythonBool (arg : node)
| PythonFloat (arg : node)
| PythonInt (arg : node)
| PythonComplex (arg0 arg1 : node)
| PythonTuple (args : list node) (attrs : option (bool * typesig node))
| PythonList (args : list node) (attrs : option (typesig node))
| PythonLen (arg : node)
| PythonAbs (x : node) (ty : typesig node)
| PythonRange (start stop step : node)
| PythonZip (args : list node) (length : length_value node)
| PythonMax (x : node) (dt : datatype) (p : Z) (ct : datatype)
| PythonMin (x : node) (dt : datatype) (p : Z) (ct : datatype).

(** What a [__new__] hands back: an object that existed before the
    call, or one allocated by it. *)
Inductive built : Type :=
| Existing (n : node)
| Fresh (n : node).

Definition node_of (b : built) : node :=
  match b with Existing n | Fresh n => n end.

(** The type computed in [operators.py] for an operator node. *)
Variable operator_type : node -> typesig node.

(** The attributes of a node, [None] when the class is not a
    [TypedAstNode] or its slots are unset (reading one raises
    [AttributeError]). *)
Definition sig_of (n : node) : option (typesig node) :=
  match n with
  | LiteralInteger _ p => Some (scalar_sig NativeInteger p)
  | LiteralFloat _ p => Some (scalar_sig NativeFloat p)
  | LiteralComplex _ _ p => Some (scalar_sig NativeComplex p)
  | Nil => None
  | Var v => Some (ty v)
  | PyccelAdd _ _ | PyccelMul _ _ | PyccelAnd _ _ | PyccelIsNot _ _ =>
      Some (operator_type n)
  | PythonBool _ => Some (scalar_sig NativeBool (-1))
  | PythonFloat _ => Some (scalar_sig NativeFloat (-1))
  | PythonInt _ => Some (scalar_sig NativeInteger (-1))
  | PythonComplex _ _ => Some (scalar_sig NativeComplex (-1))
  | PythonTuple _ attrs => option_map snd attrs
  | PythonList _ attrs => attrs
  | PythonLen _ => Some (scalar_sig NativeInteger (-1))
  | PythonAbs _ ty => Some ty
  | PythonRange _ _ _ => None
  | PythonZip _ _ => None
  | PythonMax _ dt p ct | PythonMin _ dt p ct => Some (TypeSig dt p 0%nat None None (Some ct))
  end.

Definition typed (n : node) : result (typesig node) :=
  match sig_of n with
  | Some s => Ok s
  | None => Raise AttributeError
  end.

Definition attribute {A} (get : typesig node -> A) (n : node) : result A :=
  let? s := typed n in Ok (get s).

Definition node_dtype := attribute dtype.
Definition node_precision := attribute precision.
Definition node_rank := attribute rank.
Definition node_shape := attribute shape.
Definition node_order := attribute order.

(** [n.class_type]: [PythonList] has it at class level, elsewhere it
    is a slot that may be unset. *)
Definition node_class_type (n : node) : result datatype :=
  match n with
  | PythonList _ _ => Ok NativeHomogeneousList
  | _ =>
      let? s := typed n in
      match class_type s with
      | Some c => Ok c
      | None => Raise AttributeError
      end
  end.

(** [isinstance(n, Literal)] *)
Definition is_Literal (n : node) : bool :=
  match n with
  | LiteralInteger _ _ | LiteralFloat _ _ | LiteralComplex _ _ _ => true
  | _ => false
  end.

(** Modelled from the spec: [literals.py] is not among the sources.
    [LiteralFloat(value, precision = p)] is the float literal of value
    [float(value)]. *)
Definition LiteralFloat_init (value : num) (p : Z) : result node :=
  let? f := py_float value in Ok (LiteralFloat f p).

(** Modelled from the spec: [LiteralComplex(real, imag, precision = p)]
    is the complex literal whose two parts are floats. *)
Definition LiteralComplex_init (re im : num) (p : Z) : result node :=
  let? r := py_float re in
  let? i := py_float im in
  Ok (LiteralComplex r i p).

(** Modelled from the spec: [LiteralImaginaryUnit()] is the complex
    literal [0 + 1j]. *)
Definition LiteralImaginaryUnit : result node :=
  LiteralComplex_init (py_int 0) (py_int 1) (-1).

(** [getattr(arg, 'is_optional', None)]: only variables have the flag. *)
Definition getattr_is_optional (arg : node) : option bool :=
  match arg with
  | Var v => Some (is_optional v)
  | _ => None
  end.

Definition truthy (o : option bool) : bool :=
  match o with Some true => true | _ => false end.

(** [PythonBool.__new__] *)
Definition PythonBool_new (arg : node) : built :=
  if truthy (getattr_is_optional arg) then
    let bool_expr := PythonBool arg in
    Fresh (PyccelAnd (PyccelIsNot arg Nil) bool_expr)
  else
    Fresh (PythonBool arg).

(** [PythonFloat.__new__], with [cls._precision = -1] *)
Definition PythonFloat_new (arg : node) : result built :=
  match arg with
  | LiteralFloat v p =>
      if p =? -1 then Ok (Existing arg)
      else let? l := LiteralFloat_init v (-1) in Ok (Fresh l)
  | LiteralInteger v _ =>
      let? l := LiteralFloat_init (py_int v) (-1) in Ok (Fresh l)
  | _ => Ok (Fresh (PythonFloat arg))
  end.

(** [PythonInt.__new__] *)
Definition PythonInt_new (arg : node) : built :=
  match arg with
  | LiteralInteger v _ => Fresh (LiteralInteger v (-1))
  | _ => Fresh (PythonInt arg)
  end.

(** [arg.python_value] of a literal that is not complex. *)
Definition python_value_of (arg : node) : result num :=
  match arg with
  | LiteralInteger v _ => Ok (py_int v)
  | LiteralFloat v _ => Ok v
  | _ => Raise AttributeError
  end.

Definition is_NativeComplex (d : datatype) : bool := datatype_eqb d NativeComplex.

(** [PythonComplex.__new__(cls, arg0, arg1=LiteralFloat(0))].  The
    value [PythonComplex arg0 arg1] is the instance that is then
    initialised from the same two arguments. *)
Definition PythonComplex_new (arg0 : node) (arg1 : option node) : result built :=
  let? arg1 :=
    match arg1 with
    | Some a => Ok a
    | None => LiteralFloat_init (py_int 0) (-1)
    end in
  if is_Literal arg0 && is_Literal arg1 then
    let real_part := py_int 0 in
    let imag_part := py_int 0 in
    (* Collect real and imag part from first argument *)
    let? acc0 :=
      match arg0 with
      | LiteralComplex re im _ =>
          let? real_part := py_add real_part re in
          let? imag_part := py_add imag_part im in
          Ok (real_part, imag_part)
      | _ =>
          let? v := python_value_of arg0 in
          let? real_part := py_add real_part v in
          Ok (real_part, imag_part)
      end in
    (* Collect real and imag part from second argument *)
    let? acc1 :=
      match arg1 with
      | LiteralComplex re im _ =>
          let? real_part := py_sub (fst acc0) im in
          let? imag_part := py_add (snd acc0) re in
          Ok (real_part, imag_part)
      | _ =>
          let? v := python_value_of arg1 in
          let? imag_part := py_add (snd acc0) v in
          Ok (fst acc0, imag_part)
      end in
    let? c := LiteralComplex_init (fst acc1) (snd acc1) (-1) in
    Ok (Fresh c)
  else
    let? d0 := node_dtype arg0 in
    let? both_complex :=
      if is_NativeComplex d0
      then let? d1 := node_dtype arg1 in Ok (is_NativeComplex d1)
      else Ok false in
    if both_complex then
      let? j := LiteralImaginaryUnit in
      Ok (Fresh (PyccelAdd arg0 (PyccelMul arg1 j)))
    else
      Ok (Fresh (PythonComplex arg0 arg1)).

(** *** Aggregate literals *)

(** [get_final_precision] of [internals.py]: the precision a
    (datatype, precision) pair stands for once the default marker is
    resolved. *)
Variable final_precision : datatype -> Z -> Z.

Definition get_final_precision (a : node) : result Z :=
  let? s := typed a in Ok (final_precision (dtype s) (precision s)).

Definition is_NativeGeneric (d : datatype) : bool := datatype_eqb d NativeGeneric.

(** The homogeneity test shared, word for word, by [PythonTuple.__init__]
    and [PythonList.__init__]; [rest] is [args[1:]]. *)
Definition homogeneity (arg0 : node) (rest : list node) : result bool :=
  let? precision0 := get_final_precision arg0 in
  let? s0 := typed arg0 in
  if is_NativeGeneric (dtype s0) then Ok false
  else
    all_m (fun a =>
             let? s := typed a in
             Ok (negb (is_NativeGeneric (dtype s))
                 && datatype_eqb (dtype s0) (dtype s)
                 && (precision0 =? final_precision (dtype s) (precision s))
                 && Nat.eqb (rank s0) (rank s)
                 && layout_eqb (order s0) (order s))) rest.

(** [max(a.rank for a in args)] *)
Definition max_rank (sigs : list (typesig node)) : nat :=
  foldr Nat.max 0%nat (map rank sigs).

(** [(LiteralInteger(count),) + tail]; adding [None] to a tuple is a
    [TypeError]. *)
Definition prepend_count (count : nat) (tail : option (list (option node)))
  : result (list (option node)) :=
  match tail with
  | Some t => Ok (Some (LiteralInteger (Z.of_nat count) (-1)) :: t)
  | None => Raise (TypeError "can only concatenate tuple to tuple")
  end.

(** [None if rank < 2 else 'C'] *)
Definition order_of_rank (r : nat) : option layout :=
  if (r <? 2)%nat then None else Some order_C.

(** The branch [if is_homogeneous:] of both constructors, up to the
    class type.  The rank first set from the largest rank of the
    elements is overwritten by [len(self._shape)]. *)
Definition homogeneous_sig (arg0 : node) (args : list node) (ct : option datatype)
  : result (typesig node) :=
  let? s0 := typed arg0 in
  let inner_shape0 := if Nat.eqb (rank s0) 0 then Some [] else shape s0 in
  let? shp := prepend_count (length args) inner_shape0 in
  let r := length shp in
  Ok (TypeSig (dtype s0) (precision s0) r (Some shp) (order_of_rank r) ct).

(** [PythonTuple.__init__(self, *args)].  The slot
    [_inconsistent_shape] is left out: nothing here reads it. *)
Definition PythonTuple_init (stage : PyccelStage) (args : list node) : result node :=
  if is_syntactic stage then Ok (PythonTuple args None)
  else
    match args with
    | [] =>
        Ok (PythonTuple args
              (Some (false, TypeSig NativeGeneric 0 0%nat None None None)))
    | arg0 :: rest =>
        let? is_homogeneous := homogeneity arg0 rest in
        if is_homogeneous then
          let? sg := homogeneous_sig arg0 args (Some NativeHomogeneousTuple) in
          Ok (PythonTuple args (Some (true, sg)))
        else
          let? sigs := map_m typed args in
          let max_rank := max_rank sigs in
          let r := S max_rank in
          let dt := NativeInhomogeneousTuple (map dtype sigs) in
          let? shp :=
            if Nat.eqb r 1 then prepend_count (length args) (Some [])
            else if existsb (fun s => negb (Nat.eqb (rank s) max_rank)) sigs
            then prepend_count (length args) (Some (repeat None (r - 1)))
            else let? s0 := typed arg0 in prepend_count (length args) (shape s0) in
          Ok (PythonTuple args
                (Some (false, TypeSig dt 0 r (Some shp) (order_of_rank r) (Some dt))))
    end.

(** [PythonList.__init__(self, *args)] *)
Definition PythonList_init (stage : PyccelStage) (args : list node) : result node :=
  if is_syntactic stage then Ok (PythonList args None)
  else
    match args with
    | [] =>
        Ok (PythonList args
              (Some (TypeSig NativeGeneric 0 0%nat None None (Some NativeHomogeneousList))))
    | arg0 :: rest =>
        let? is_homogeneous := homogeneity arg0 rest in
        if is_homogeneous then
          let? sg := homogeneous_sig arg0 args (Some NativeHomogeneousList) in
          Ok (PythonList args (Some sg))
        else
          Raise (TypeError "Can't create an inhomogeneous list")
    end.

(** The property [is_homogeneous]: stored by a tuple, [True] for every
    list, an attribute of the tuple variables. *)
Definition is_homogeneous (n : node) : result bool :=
  match n with
  | PythonTuple _ (Some (h, _)) => Ok h
  | PythonList _ _ => Ok true
  | Var v =>
      match tuple_kind v with
      | Some h => Ok h
      | None => Raise AttributeError
      end
  | _ => Raise AttributeError
  end.

(** [getattr(arg, 'is_homogeneous', False)] *)
Definition getattr_is_homogeneous (arg : node) : bool :=
  match is_homogeneous arg with
  | Ok h => h
  | Raise _ => false
  end.

(** [arg.shape[0]] *)
Definition first_dimension (arg : node) : result (option node) :=
  let? shp := node_shape arg in
  match shp with
  | None => Raise (TypeError "'NoneType' object is not subscriptable")
  | Some [] => Raise IndexError
  | Some (d :: _) => Ok d
  end.

(** What [PythonLen.__new__] returns: a component of the argument's
    shape (possibly [None]), or a new [PythonLen] node. *)
Inductive len_result : Type :=
| ShapeComponent (d : option node)
| LenNode (n : node).

(** [PythonLen.__new__] *)
Definition PythonLen_new (arg : node) : result len_result :=
  if negb (getattr_is_homogeneous arg) then
    let? d := first_dimension arg in Ok (ShapeComponent d)
  else
    Ok (LenNode (PythonLen arg)).

(** What [PythonTupleFunction.__new__] reads from classes defined
    elsewhere: the elements of an [InhomogeneousTupleVariable]
    ([variable.py]), [arg[i]] and [str(arg)] of an arbitrary node. *)
Variable tuple_variable_elements : variable node -> list node.
Variable getitem : node -> nat -> result node.
Variable node_str : node -> string.

(** [PythonTupleFunction.__new__(cls, arg)].  [range(n)] of a literal
    integer is the [n] indices from 0, none when [n] is negative. *)
Definition PythonTupleFunction_new (stage : PyccelStage) (arg : node) : result built :=
  match arg with
  | PythonTuple _ _ => Ok (Existing arg)
  | PythonList args _ =>
      let? t := PythonTuple_init stage args in Ok (Fresh t)
  | Var (Variable_ _ _ _ (Some false) as v) =>
      let? t := PythonTuple_init stage (tuple_variable_elements v) in Ok (Fresh t)
  | _ =>
      let? d := first_dimension arg in
      match d with
      | Some (LiteralInteger n _) =>
          let? items := map_m (getitem arg) (seq 0 (Z.to_nat n)) in
          let? t := PythonTuple_init stage items in Ok (Fresh t)
      | _ => Raise (TypeError ("Can't unpack " +:+ node_str arg +:+ " into a tuple"))
      end
  end.

(** [PythonAbs.__init__] *)
Definition PythonAbs_init (x : node) : result node :=
  let? shp := node_shape x in
  let? r := node_rank x in
  let? d := node_dtype x in
  let? o := node_order x in
  let? ct := node_class_type x in
  let dt := if datatype_eqb d NativeInteger then NativeInteger else NativeFloat in
  Ok (PythonAbs x (TypeSig dt (-1) r shp o (Some ct))).

(** [PythonRange.__init__(self, *args)] *)
Definition PythonRange_init (args : list node) : result node :=
  match args with
  | [stop] => Ok (PythonRange (LiteralInteger 0 (-1)) stop (LiteralInteger 1 (-1)))
  | [start; stop] => Ok (PythonRange start stop (LiteralInteger 1 (-1)))
  | [start; stop; step] => Ok (PythonRange start stop step)
  | _ => Raise (ValueError "Range has at most 3 arguments")
  end.

(** [min(lengths)] of a non-empty list of ints. *)
Definition min_of (n : Z) (ns : list Z) : Z := foldr Z.min n ns.

(** [[a.shape[0].python_value for a in args
      if isinstance(a.shape[0], LiteralInteger)]] *)
Fixpoint known_lengths (args : list node) : result (list Z) :=
  match args with
  | [] => Ok []
  | a :: rest =>
      let? d := first_dimension a in
      let? ns := known_lengths rest in
      match d with
      | Some (LiteralInteger v _) => Ok (v :: ns)
      | _ => Ok ns
      end
  end.

(** [PythonZip.__init__(self, *args)] *)
Definition PythonZip_init (stage : PyccelStage) (args : list node) : result node :=
  if (length args <? 2)%nat then Raise (ValueError "args must be of length > 2")
  else if is_syntactic stage then Ok (PythonZip args NoLength)
  else
    let? lengths := known_lengths args in
    match lengths with
    | n :: ns => Ok (PythonZip args (IntLength (min_of n ns)))
    | [] =>
        match args with
        | a0 :: _ =>
            let? d := first_dimension a0 in
            Ok (PythonZip args (match d with Some e => ExprLength e | None => NoLength end))
        | [] => Raise IndexError
        end
    end.

(** The property [length] of a zip node. *)
Definition zip_length (n : node) : result (length_value node) :=
  match n with
  | PythonZip _ l => Ok l
  | _ => Raise AttributeError
  end.

(** *** Extrema *)

(** [str(dtype)], defined in [datatypes.py]. *)
Variable datatype_str : datatype -> string.

(** One positional argument of [max] / [min]: a node, or a plain
    Python list or tuple of nodes. *)
Inductive pyarg : Type :=
| Node (n : node)
| Sequence (l : list node).

(** The first lines of [PythonMax.__init__] and [PythonMin.__init__]:
    [x] becomes the aggregate whose extremum is taken. *)
Definition extremum_operand (stage : PyccelStage) (x : list pyarg) : result node :=
  match x with
  | [Node n] =>
      match n with
      | PythonTuple _ _ | PythonList _ _ => Ok n
      | _ => Raise (TypeError "Unknown type of the argument's class.")
      end
  | [Sequence l] => PythonTuple_init stage l
  | _ =>
      let? l := map_m (fun a => match a with
                                | Node n => Ok n
                                | Sequence _ => Raise AttributeError
                                end) x in
      PythonTuple_init stage l
  end.

(** [x.__iter__()] of a tuple or list node. *)
Definition elements (x : node) : list node :=
  match x with
  | PythonTuple args _ | PythonList args _ => args
  | _ => []
  end.

(** [', '.join('{xi.dtype}({xi.precision})' for xi in x)]: a plain
    string, not a formatted one. *)
Definition max_types (x : node) : result string :=
  Ok (String.concat ", " (map (fun _ => "{xi.dtype}({xi.precision})") (elements x))).

(** [', '.join(f'{xi.dtype}({xi.precision})' for xi in x)] *)
Definition min_types (x : node) : result string :=
  let? parts := map_m (fun xi =>
                         let? d := node_dtype xi in
                         let? p := node_precision xi in
                         Ok (datatype_str d +:+ "(" +:+ pretty p +:+ ")"))
                      (elements x) in
  Ok (String.concat ", " parts).

Definition extremum_message (fname types : string) : string :=
  "Cannot determine final dtype of '" +:+ fname
  +:+ "' call with arguments of different types (" +:+ types
  +:+ "). Please cast arguments to the desired dtype".

(** [PythonMax.__init__(self, *x)] *)
Definition PythonMax_init (stage : PyccelStage) (x : list pyarg) : result node :=
  let? x := extremum_operand stage x in
  let? h := is_homogeneous x in
  if negb h then
    let? types := max_types x in
    Raise (PyccelError (extremum_message "max" types))
  else
    let? d := node_dtype x in
    let? p := node_precision x in
    let? ct := node_class_type x in
    Ok (PythonMax x d p ct).

(** [PythonMin.__init__(self, *x)] *)
Definition PythonMin_init (stage : PyccelStage) (x : list pyarg) : result node :=
  let? x := extremum_operand stage x in
  let? h := is_homogeneous x in
  if negb h then
    let? types := min_types x in
    Raise (PyccelError (extremum_message "min" types))
  else
    let? d := node_dtype x in
    let? p := node_precision x in
    let? ct := node_class_type x in
    Ok (PythonMin x d p ct).

(** *** Accessors of a complex number *)

(** What [PythonReal.__new__] and
    [PythonConjugate.__new__] return: something simpler than the
    requested node, or a new instance of the class (which [__init__]
    then gives the argument). *)
Inductive accessor_built : Type :=
| Simplified (b : built)
| Accessor (arg : node).

(** Modelled from the spec: the datatype classes of [datatypes.py]
    have one instance each, so [isinstance(d, NativeBool)] and
    [d is NativeBool()] are the same test. *)
Definition is_NativeBool (d : datatype) : bool := datatype_eqb d NativeBool.

(** [PythonReal.__new__] *)
Definition PythonReal_new (arg : node) : result accessor_built :=
  let? d := node_dtype arg in
  if is_NativeBool d then Ok (Simplified (PythonInt_new arg))
  else if negb (is_NativeComplex d) then Ok (Simplified (Existing arg))
  else Ok (Accessor arg).

(** [PythonConjugate.__new__] *)
Definition PythonConjugate_new (arg : node) : result accessor_built :=
  let? d := node_dtype arg in
  if is_NativeBool d then Ok (Simplified (PythonInt_new arg))
  else if negb (is_NativeComplex d) then Ok (Simplified (Existing arg))
  else Ok (Accessor arg).

(** The [dtype] of what an accessor constructor returned; [cls_dtype]
    is the class attribute [_dtype] ([NativeFloat()] for
    [PythonComplexProperty], [NativeComplex()] for [PythonConjugate]). *)
Definition accessor_dtype (cls_dtype : datatype) (r : accessor_built) : result datatype :=
  match r with
  | Simplified b => node_dtype (node_of b)
  | Accessor _ => Ok cls_dtype
  end.

(** ** The binding nodes ([pyccel/ast/bind_c.py]) *)

(** The naming scope ([pyccel.parser.scope.Scope]) is handed to the
    constructors by the caller; [get_temporary_variable(dtype, name=...)]
    returns a variable and updates the scope. *)
Variable Scope : Type.
Variable get_temporary_variable :
  Scope -> datatype -> string -> variable node * Scope.

(** [f'{name}_shape_{i+1}'] and [f'{name}_stride_{i+1}'] *)
Definition shape_name (name : string) (i : nat) : string :=
  name +:+ "_shape_" +:+ pretty (i + 1)%nat.
Definition stride_name (name : string) (i : nat) : string :=
  name +:+ "_stride_" +:+ pretty (i + 1)%nat.

(** [[scope.get_temporary_variable(NativeInteger(), name=fmt(i))
      for i in indices]], the scope being updated by every call. *)
Fixpoint temporaries (fmt : nat -> string) (indices : list nat) (scope : Scope)
  : list (variable node) * Scope :=
  match indices with
  | [] => ([], scope)
  | i :: rest =>
      let (v, scope1) := get_temporary_variable scope NativeInteger (fmt i) in
      let (vs, scope2) := temporaries fmt rest scope1 in
      (v :: vs, scope2)
  end.

(** [range(n)] *)
Definition range (n : nat) : list nat := seq 0 n.

(** A [BindCFunctionDefArgument]: the slots of the class, and of the
    base class [FunctionDefArgument] the variable and the [inout] flag
    it holds. *)
Record BindCFunctionDefArgument : Type := {
  arg_var : variable node;
  arg_base_inout : bool;
  arg_rank : nat;
  arg_shape : list (variable node);
  arg_strides : list (variable node);
  arg_original_arg_var : variable node
}.

(** [BindCFunctionDefArgument.__init__(self, var, scope, original_arg_var, **kwargs)] *)
Definition BindCFunctionDefArgument_init
    (var : variable node) (scope : Scope) (original_arg_var : variable node)
    (inout : bool) : BindCFunctionDefArgument * Scope :=
  let name := name var in
  let rank := rank (ty original_arg_var) in
  let (shape, scope1) := temporaries (shape_name name) (range rank) scope in
  let (strides, scope2) := temporaries (stride_name name) (range rank) scope1 in
  ({| arg_var := var; arg_base_inout := inout; arg_rank := rank;
      arg_shape := shape; arg_strides := strides;
      arg_original_arg_var := original_arg_var |}, scope2).

(** An entry of the flattened argument list: the wrapper itself, or
    [FunctionDefArgument(v)]. *)
Inductive argument_descriptor : Type :=
| ArgSelf (w : BindCFunctionDefArgument)
| FunctionDefArgument (v : variable node).

Definition get_all_function_def_arguments (self : BindCFunctionDefArgument)
  : list argument_descriptor :=
  let args := [ArgSelf self] in
  let args := args ++ map FunctionDefArgument (arg_shape self) in
  let args := args ++ map FunctionDefArgument (arg_strides self) in
  args.

(** The value of the property [inout]: a flag, or a list of flags. *)
Inductive inout_value : Type :=
| InoutFlag (b : bool)
| InoutList (l : list bool).

(** [l * n] on Python lists *)
Definition list_times {A} (l : list A) (n : nat) : list A := concat (repeat l n).

(** The property [BindCFunctionDefArgument.inout] *)
Definition inout (self : BindCFunctionDefArgument) : inout_value :=
  if negb (Nat.eqb (arg_rank self) 0) then
    InoutList ([false] ++ list_times [false; false] (arg_rank self))
  else
    InoutFlag (arg_base_inout self).

(** A [BindCFunctionDefResult] *)
Record BindCFunctionDefResult : Type := {
  res_var : variable node;
  res_shape : list (variable node);
  res_original_res_var : variable node
}.

(** [BindCFunctionDefResult.__init__(self, var, original_res_var, scope, **kwargs)] *)
Definition BindCFunctionDefResult_init
    (var original_res_var : variable node) (scope : Scope)
  : BindCFunctionDefResult * Scope :=
  let name := name original_res_var in
  let (shape, scope1) :=
    temporaries (shape_name name) (range (rank (ty original_res_var))) scope in
  ({| res_var := var; res_shape := shape;
      res_original_res_var := original_res_var |}, scope1).

Inductive result_descriptor : Type :=
| ResSelf (w : BindCFunctionDefResult)
| FunctionDefResult (v : variable node).

Definition get_all_function_def_results (self : BindCFunctionDefResult)
  : list result_descriptor :=
  let res := [ResSelf self] in
  let res := res ++ map FunctionDefResult (res_shape self) in
  res.

(** What a failed [assert] leaves of a constructor call. *)
Inductive asserted (A : Type) : Type :=
| Passed (a : A)
| AssertionError.
Arguments Passed {A} a.
Arguments AssertionError {A}.

(** Python's [str.lower]. *)
Variable lower : string -> string.

(** The class [FunctionDef] of [core.py]. *)
Variable FunctionDef : Type.

(** A [BindCFunctionDef]: of the base class [FunctionDef] the name and
    the lists [_arguments] and [_results], whose entries are wrappers
    or plain [FunctionDefArgument] / [FunctionDefResult] objects. *)
Record BindCFunctionDef : Type := {
  fun_name : string;
  fun_arguments : list argument_descriptor;
  fun_results : list result_descriptor;
  fun_original_function : FunctionDef
}.

(** [isinstance(a, BindCFunctionDefArgument)] *)
Definition is_BindCFunctionDefArgument (a : argument_descriptor) : bool :=
  match a with ArgSelf _ => true | FunctionDefArgument _ => false end.

(** [isinstance(a, BindCFunctionDefResult)] *)
Definition is_BindCFunctionDefResult (a : result_descriptor) : bool :=
  match a with ResSelf _ => true | FunctionDefResult _ => false end.

(** [BindCFunctionDef.__init__]: the three assertions that follow the
    initialisation of the base class. *)
Definition BindCFunctionDef_init (name : string)
    (arguments : list argument_descriptor) (results : list result_descriptor)
    (original_function : FunctionDef) : asserted BindCFunctionDef :=
  if negb (String.eqb name (lower name)) then AssertionError
  else if negb (forallb is_BindCFunctionDefArgument arguments) then AssertionError
  else if negb (forallb is_BindCFunctionDefResult results) then AssertionError
  else Passed {| fun_name := name; fun_arguments := arguments;
                 fun_results := results;
                 fun_original_function := original_function |}.

(** The properties [bind_c_arguments] and [bind_c_results] *)
Definition bind_c_arguments (f : BindCFunctionDef) := fun_arguments f.
Definition bind_c_results (f : BindCFunctionDef) := fun_results f.

(** [[ai for a in l for ai in f(a)]] where [f] may raise. *)
Fixpoint flat_map_m {A B} (f : A -> result (list B)) (l : list A) : result (list B) :=
  match l with
  | [] => Ok []
  | a :: l' => let? bs := f a in let? rest := flat_map_m f l' in Ok (bs ++ rest)
  end.

(** The property [arguments]: only a wrapper has the method
    [get_all_function_def_arguments]. *)
Definition arguments (f : BindCFunctionDef) : result (list argument_descriptor) :=
  flat_map_m (fun a => match a with
                       | ArgSelf w => Ok (get_all_function_def_arguments w)
                       | FunctionDefArgument _ => Raise AttributeError
                       end) (fun_arguments f).

(** The property [results] *)
Definition results (f : BindCFunctionDef) : result (list result_descriptor) :=
  flat_map_m (fun a => match a with
                       | ResSelf w => Ok (get_all_function_def_results w)
                       | FunctionDefResult _ => Raise AttributeError
                       end) (fun_results f).

(** ** Vocabulary of the properties *)




(** The value Python gives to the expression that [PythonBool.__new__]
    assembles ([x is not None and bool(x)]): [present x] tells whether
    the operand holds a value, [truth x] is the truth of the value it
    holds.  [bool(x)] of an absent operand has no value. *)
Fixpoint bool_value (present truth : node -> bool) (n : node) : option bool :=
  match n with
  | PyccelIsNot a Nil => Some (present a)
  | PythonBool a => if present a then Some (truth a) else None
  | PyccelAnd a b =>
      match bool_value present truth a with
      | Some true => bool_value present truth b
      | other => other
      end
  | _ => None
  end.

(** Two typed elements agree when they have the same kind, the same
    final precision, the same rank and the same layout order. *)
Definition agrees (s0 s : typesig node) : Prop :=
  dtype s = dtype s0
  /\ final_precision (dtype s) (precision s) = final_precision (dtype s0) (precision s0)
  /\ rank s = rank s0
  /\ order s = order s0.

Definition pairwise_identical (sigs : list (typesig node)) : Prop :=
  forall s s', In s sigs -> In s' sigs -> agrees s s'.

(** An element has shape [dims]: its rank is [len(dims)], and its shape is
    [dims], or [None] for a scalar. *)
Definition has_shape (dims : list (option node)) (s : typesig node) : Prop :=
  rank s = length dims
  /\ (shape s = Some dims \/ (dims = [] /\ shape s = None)).

(** The first dimensions that are integer literals, as ints. *)
Definition static_lengths (dims : list (option node)) : list Z :=
  omap (fun d => match d with
                 | Some (LiteralInteger v _) => Some v
                 | _ => None
                 end) dims.

(** A typed element of positive rank has a shape. *)
Definition shaped (s : typesig node) : Prop :=
  rank s <> 0%nat -> shape s <> None.

(** The rank of a typed element is the length of its shape, [None]
    counting as the empty shape. *)
Definition well_shaped (s : typesig node) : Prop :=
  rank s = length (default [] (shape s)).

(** The ranks of the wrappers among the entries of an argument list,
    and of a result list. *)
Definition argument_ranks (l : list argument_descriptor) : list nat :=
  omap (fun a => match a with
                 | ArgSelf w => Some (arg_rank w)
                 | FunctionDefArgument _ => None
                 end) l.

Definition result_ranks (l : list result_descriptor) : list nat :=
  omap (fun a => match a with
                 | ResSelf w => Some (length (res_shape w))
                 | FunctionDefResult _ => None
                 end) l.

(** A wrapper holds one shape and one stride variable per dimension. *)
Definition one_per_dimension (a : argument_descriptor) : Prop :=
  match a with
  | ArgSelf w => length (arg_shape w) = arg_rank w /\ length (arg_strides w) = arg_rank w
  | FunctionDefArgument _ => True
  end.

(** ** Properties *)

Lemma datatype_eqb_refl : forall a, datatype_eqb a a = true.
Proof.
  fix IH 1. intros [| | | | | | | l |]; simpl; try reflexivity.
  induction l as [|x xs IHl]; [reflexivity|].
  rewrite IH. simpl. exact IHl.
Qed.

Lemma datatype_eqb_sound : forall a b, datatype_eqb a b = true -> a = b.
Proof.
  fix IH 1. intros [| | | | | | | l1 |] [| | | | | | | l2 |]; simpl;
    try reflexivity; try discriminate.
  intros H. f_equal. revert l2 H.
  induction l1 as [|x xs IHl]; intros [|y ys] H; try reflexivity; try discriminate.
  apply andb_prop in H as [Hxy Hrest].
  f_equal; [exact (IH x y Hxy) | exact (IHl ys Hrest)].
Qed.

Lemma datatype_eqb_eq a b : datatype_eqb a b = true <-> a = b.
Proof.
  split; [apply datatype_eqb_sound | intros ->; apply datatype_eqb_refl].
Qed.

Lemma layout_eqb_eq a b : layout_eqb a b = true <-> a = b.
Proof.
  destruct a as [[|]|], b as [[|]|]; simpl; split; intros H;
    try reflexivity; try discriminate H.
Qed.

Lemma agrees_refl s : agrees s s.
Proof. repeat split. Qed.

Lemma agrees_sym s s' : agrees s s' -> agrees s' s.
Proof. intros (? & ? & ? & ?). repeat split; congruence. Qed.

Lemma agrees_trans s1 s2 s3 : agrees s1 s2 -> agrees s2 s3 -> agrees s1 s3.
Proof. intros (? & ? & ? & ?) (? & ? & ? & ?). repeat split; congruence. Qed.

(** Comparing every element with the first is comparing them pairwise. *)
Lemma pairwise_identical_head s0 rest :
  pairwise_identical (s0 :: rest) <-> Forall (agrees s0) rest.
Proof.
  split.
  - intros H. apply Forall_forall. intros s Hs.
    apply H; [left; reflexivity | right; apply list_elem_of_In; exact Hs].
  - intros H s s' Hs Hs'.
    assert (Hall : forall t, In t (s0 :: rest) -> agrees s0 t).
    { intros t [<-|Ht]; [apply agrees_refl|].
      rewrite Forall_forall in H. apply H, list_elem_of_In, Ht. }
    apply agrees_trans with s0; [apply agrees_sym|]; apply Hall; assumption.
Qed.

(** The test of the two constructors, on typed elements, says exactly
    that the first element is not generic and every other one agrees
    with it. *)
Lemma homogeneity_decides arg0 rest s0 sigs :
  typed arg0 = Ok s0 ->
  map_m typed rest = Ok sigs ->
  exists b, homogeneity arg0 rest = Ok b
    /\ (b = true <-> dtype s0 <> NativeGeneric /\ Forall (agrees s0) sigs).
Proof.
  intros H0 Hrest. unfold homogeneity, get_final_precision. rewrite H0. simpl.
  unfold is_NativeGeneric at 1.
  destruct (datatype_eqb (dtype s0) NativeGeneric) eqn:Hg.
  { apply datatype_eqb_eq in Hg. exists false. split; [reflexivity|].
    split; [discriminate | intros [Hne _]; contradiction]. }
  assert (Hne : dtype s0 <> NativeGeneric).
  { intros Heq. apply datatype_eqb_eq in Heq. congruence. }
  revert sigs Hrest. induction rest as [|a rest IH]; intros sigs Hrest.
  - injection Hrest as <-. exists true. split; [reflexivity|].
    split; [intros _; split; [exact Hne | constructor] | reflexivity].
  - simpl in Hrest. destruct (typed a) as [s|e] eqn:Ha; [|discriminate].
    simpl in Hrest. destruct (map_m typed rest) as [ss|e] eqn:Hss; [|discriminate].
    simpl in Hrest. injection Hrest as <-.
    destruct (IH ss eq_refl) as (b & Hb & Hiff).
    simpl. rewrite Ha. simpl.
    destruct (negb (is_NativeGeneric (dtype s))
              && datatype_eqb (dtype s0) (dtype s)
              && (final_precision (dtype s0) (precision s0)
                  =? final_precision (dtype s) (precision s))
              && Nat.eqb (rank s0) (rank s)
              && layout_eqb (order s0) (order s)) eqn:Hc.
    + apply andb_prop in Hc as [Hc Ho]. apply andb_prop in Hc as [Hc Hr].
      apply andb_prop in Hc as [Hc Hp]. apply andb_prop in Hc as [_ Hd].
      apply datatype_eqb_eq in Hd. apply Z.eqb_eq in Hp.
      apply Nat.eqb_eq in Hr. apply layout_eqb_eq in Ho.
      exists b. split; [exact Hb|]. rewrite Hiff. split.
      * intros [? Hf]. split; [assumption|]. constructor; [|exact Hf].
        repeat split; congruence.
      * intros [? Hf]. split; [assumption|]. inversion Hf; assumption.
    + exists false. split; [reflexivity|]. split; [discriminate|].
      intros [_ Hf]. inversion Hf as [|? ? (Hd & Hp & Hr & Ho) _]; subst.
      assert (Hng : is_NativeGeneric (dtype s) = false).
      { unfold is_NativeGeneric. rewrite Hd. exact Hg. }
      assert (Ht : negb (is_NativeGeneric (dtype s))
                   && datatype_eqb (dtype s0) (dtype s)
                   && (final_precision (dtype s0) (precision s0)
                       =? final_precision (dtype s) (precision s))
                   && Nat.eqb (rank s0) (rank s)
                   && layout_eqb (order s0) (order s) = true).
      { repeat (apply andb_true_intro; split).
        - rewrite Hng; reflexivity.
        - apply datatype_eqb_eq; congruence.
        - apply Z.eqb_eq; congruence.
        - apply Nat.eqb_eq; congruence.
        - apply layout_eqb_eq; congruence. }
      congruence.
Qed.

Lemma map_m_cons_inv {A B} (f : A -> result B) a l bs :
  map_m f (a :: l) = Ok bs ->
  exists b bs', f a = Ok b /\ map_m f l = Ok bs' /\ bs = b :: bs'.
Proof.
  simpl. destruct (f a) as [b|e]; [|discriminate]. simpl.
  destruct (map_m f l) as [bs'|e]; [|discriminate]. simpl.
  intros [= <-]. eauto.
Qed.

Lemma map_m_length {A B} (f : A -> result B) l bs :
  map_m f l = Ok bs -> length bs = length l.
Proof.
  revert bs. induction l as [|a l IH]; intros bs H.
  - injection H as <-. reflexivity.
  - apply map_m_cons_inv in H as (b & bs' & _ & Hl & ->).
    simpl. f_equal. apply IH, Hl.
Qed.

Lemma rank_le_max_rank sigs s : In s sigs -> (rank s <= max_rank sigs)%nat.
Proof.
  unfold max_rank. induction sigs as [|t sigs IH]; simpl; [contradiction|].
  intros [->|Hs]; [lia|]. specialize (IH Hs). lia.
Qed.

(** When no element's rank differs from the largest one, all ranks
    are equal. *)
Lemma ranks_equal_of_no_gap sigs :
  existsb (fun s => negb (Nat.eqb (rank s) (max_rank sigs))) sigs = false ->
  forall s s', In s sigs -> In s' sigs -> rank s = rank s'.
Proof.
  intros H.
  assert (Hall : forall s, In s sigs -> rank s = max_rank sigs).
  { intros s Hs. destruct (Nat.eqb (rank s) (max_rank sigs)) eqn:E.
    - apply Nat.eqb_eq, E.
    - exfalso.
      assert (Ht : existsb (fun s => negb (Nat.eqb (rank s) (max_rank sigs))) sigs = true).
      { apply existsb_exists. exists s. split; [exact Hs|]. rewrite E. reflexivity. }
      congruence. }
  intros s s' Hs Hs'. rewrite (Hall s Hs), (Hall s' Hs'). reflexivity.
Qed.

(** The two ways of saying that a sequence of typed elements is
    homogeneous. *)
Lemma homogeneous_head s0 rest :
  (Forall (fun s => dtype s <> NativeGeneric) (s0 :: rest)
   /\ pairwise_identical (s0 :: rest))
  <-> (dtype s0 <> NativeGeneric /\ Forall (agrees s0) rest).
Proof.
  rewrite pairwise_identical_head. split.
  - intros [Hg Hp]. split; [inversion Hg; assumption | exact Hp].
  - intros [Hg Hp]. split; [|exact Hp].
    constructor; [exact Hg|]. eapply Forall_impl; [exact Hp|].
    intros s (Hd & _). simpl. rewrite Hd. exact Hg.
Qed.


(** C2 (as the code has it).  Of the three casts only [float]
    ever returns its operand, and only for a float literal already at
    the default precision.  A float literal at another precision and an
    integer literal are rebuilt by [float] as a new float literal at
    the default precision; [int] rebuilds an integer literal as a new
    one at the default precision; on every other operand, whatever its
    kind, [float] and [int] allocate a node around it, and [bool] does
    so on every operand (the optional-guard conjunction when the
    operand is flagged optional). *)
Theorem casts_on_literals_and_operands :
  (forall x n, PythonFloat_new x = Ok (Existing n)
               <-> n = x /\ exists v, x = LiteralFloat v (-1))
  /\ (forall v p, p <> -1 ->
        PythonFloat_new (LiteralFloat v p)
        = let? f := py_float v in Ok (Fresh (LiteralFloat f (-1))))
  /\ (forall v p,
        PythonFloat_new (LiteralInteger v p)
        = let? f := py_float (py_int v) in Ok (Fresh (LiteralFloat f (-1))))
  /\ (forall x, (forall v p, x <> LiteralInteger v p) ->
                (forall v p, x <> LiteralFloat v p) ->
        PythonFloat_new x = Ok (Fresh (PythonFloat x)))
  /\ (forall x,
        PythonInt_new x
        = Fresh (match x with
                 | LiteralInteger v _ => LiteralInteger v (-1)
                 | _ => PythonInt x
                 end))
  /\ (forall x,
        PythonBool_new x
        = Fresh (if truthy (getattr_is_optional x)
                 then PyccelAnd (PyccelIsNot x Nil) (PythonBool x)
                 else PythonBool x)).
Proof.
  split; [|split; [|split; [|split; [|split]]]].
  - intros x n. split.
    + unfold PythonFloat_new, LiteralFloat_init.
      destruct x; try discriminate;
        try (destruct (py_float _); discriminate).
      destruct (prec =? -1) eqn:E.
      * apply Z.eqb_eq in E. subst prec. intros [= <-]. eauto.
      * destruct (py_float _); discriminate.
    + intros [-> [v ->]]. reflexivity.
  - intros v p Hp. unfold PythonFloat_new, LiteralFloat_init.
    apply Z.eqb_neq in Hp. rewrite Hp.
    destruct (py_float v); reflexivity.
  - intros v p. unfold PythonFloat_new, LiteralFloat_init.
    destruct (py_float (py_int v)); reflexivity.
  - intros x Hi Hf. destruct x; try reflexivity.
    + contradiction (Hi python_value prec). reflexivity.
    + contradiction (Hf python_value prec). reflexivity.
  - intros x. destruct x; reflexivity.
  - intros x. unfold PythonBool_new. destruct (truthy _); reflexivity.
Qed.

(** C10. On an argument flagged optional, [bool(arg)] is the
    conjunction [PyccelAnd(PyccelIsNot(arg, Nil()), PythonBool(arg))],
    whose value is false when the argument is absent; on any other
    argument it is a [PythonBool] node, of boolean kind and rank 0. *)
Theorem PythonBool_new_guards_optional (arg : node) :
  (getattr_is_optional arg = Some true ->
     PythonBool_new arg = Fresh (PyccelAnd (PyccelIsNot arg Nil) (PythonBool arg))
     /\ forall present truth, present arg = false ->
          bool_value present truth (node_of (PythonBool_new arg)) = Some false)
  /\ (getattr_is_optional arg <> Some true ->
       PythonBool_new arg = Fresh (PythonBool arg)
       /\ node_dtype (PythonBool arg) = Ok NativeBool
       /\ node_rank (PythonBool arg) = Ok 0%nat).
Proof.
  unfold PythonBool_new. split.
  - intros ->. simpl. split; [reflexivity|].
    intros present truth ->. reflexivity.
  - intros Hno. split; [|split; reflexivity].
    destruct (getattr_is_optional arg) as [[|]|]; simpl;
      [contradiction|reflexivity|reflexivity].
Qed.

Lemma homogeneous_sig_of_shape arg0 args s0 dims ct :
  typed arg0 = Ok s0 ->
  has_shape dims s0 ->
  homogeneous_sig arg0 args ct
  = Ok (TypeSig (dtype s0) (precision s0) (length dims + 1)
          (Some (Some (LiteralInteger (Z.of_nat (length args)) (-1)) :: dims))
          (if (2 <=? length dims + 1)%nat then Some order_C else None) ct).
Proof.
  intros H0 [Hr Hs]. unfold homogeneous_sig. rewrite H0. simpl.
  assert (Hin : (if Nat.eqb (rank s0) 0 then Some [] else shape s0) = Some dims).
  { destruct Hs as [Hs|[-> Hs]].
    - rewrite Hs. destruct (Nat.eqb (rank s0) 0) eqn:E; [|reflexivity].
      apply Nat.eqb_eq in E. rewrite E in Hr. symmetry in Hr.
      apply length_zero_iff_nil in Hr. subst dims. reflexivity.
    - simpl in Hr. rewrite Hr. reflexivity. }
  rewrite Hin, Nat.add_1_r. unfold order_of_rank. simpl.
  destruct dims; reflexivity.
Qed.

(** C6. A homogeneous tuple or list literal of [n >= 1] typed elements,
    each of shape [dims], is built with shape [(n,) + dims] and rank
    [len(dims) + 1]; its layout order is row-major when that rank is at
    least 2 and [None] otherwise. *)
Theorem homogeneous_aggregate_shape (arg0 : node) (rest : list node)
    (sigs : list (typesig node)) (dims : list (option node)) :
  map_m typed (arg0 :: rest) = Ok sigs ->
  Forall (fun s => dtype s <> NativeGeneric) sigs ->
  pairwise_identical sigs ->
  Forall (has_shape dims) sigs ->
  let args := arg0 :: rest in
  let shp := Some (LiteralInteger (Z.of_nat (length args)) (-1)) :: dims in
  let r := (length dims + 1)%nat in
  let o := if (2 <=? r)%nat then Some order_C else None in
  exists t l,
    PythonTuple_init Semantic args = Ok t
    /\ PythonList_init Semantic args = Ok l
    /\ is_homogeneous t = Ok true /\ is_homogeneous l = Ok true
    /\ node_shape t = Ok (Some shp) /\ node_rank t = Ok r /\ node_order t = Ok o
    /\ node_shape l = Ok (Some shp) /\ node_rank l = Ok r /\ node_order l = Ok o.
Proof.
  intros Hty Hgen Hpair Hshape args shp r o. subst args shp r o.
  apply map_m_cons_inv in Hty as (s0 & sigs' & H0 & Hrest & ->).
  destruct (homogeneity_decides arg0 rest s0 sigs' H0 Hrest) as (b & Hb & Hiff).
  assert (b = true) as ->
    by (apply Hiff, homogeneous_head; split; assumption).
  assert (Hs0 : has_shape dims s0) by (inversion Hshape; assumption).
  unfold PythonTuple_init, PythonList_init. simpl is_syntactic. cbv iota.
  rewrite Hb. simpl bind. cbv iota.
  rewrite !(homogeneous_sig_of_shape arg0 (arg0 :: rest) s0 dims) by assumption.
  simpl bind. eexists; eexists.
  repeat split; reflexivity.
Qed.

Lemma homogeneous_sig_succeeds arg0 args s0 ct :
  typed arg0 = Ok s0 -> shaped s0 ->
  exists sg, homogeneous_sig arg0 args ct = Ok sg.
Proof.
  intros H0 Hs. unfold homogeneous_sig. rewrite H0. simpl.
  destruct (Nat.eqb (rank s0) 0) eqn:E; [simpl; eauto|].
  apply Nat.eqb_neq in E. destruct (shape s0) eqn:Hshape; [simpl; eauto|].
  exfalso. apply (Hs E). exact Hshape.
Qed.

(** C5 (as the code has it). For a non-empty sequence of typed
    elements, list construction fails with the type error exactly when
    some element is of generic kind or the elements' kinds, final
    precisions, ranks and orders are not pairwise identical; tuple
    construction on such elements succeeds, is not homogeneous, and
    when the ranks differ its shape is the count followed by unknown
    dimensions. *)
Theorem aggregate_homogeneity_law (arg0 : node) (rest : list node)
    (sigs : list (typesig node)) :
  map_m typed (arg0 :: rest) = Ok sigs ->
  Forall shaped sigs ->
  let args := arg0 :: rest in
  let homogeneous :=
    Forall (fun s => dtype s <> NativeGeneric) sigs /\ pairwise_identical sigs in
  (PythonList_init Semantic args = Raise (TypeError "Can't create an inhomogeneous list")
   <-> ~ homogeneous)
  /\ (homogeneous -> exists l, PythonList_init Semantic args = Ok l)
  /\ (~ homogeneous ->
      exists t, PythonTuple_init Semantic args = Ok t
        /\ is_homogeneous t = Ok false
        /\ (~ (forall s s', In s sigs -> In s' sigs -> rank s = rank s') ->
            node_shape t
            = Ok (Some (Some (LiteralInteger (Z.of_nat (length args)) (-1))
                        :: repeat None (max_rank sigs))))).
Proof.
  intros Hty Hshaped args homogeneous. subst args homogeneous.
  pose proof Hty as Hty'.
  apply map_m_cons_inv in Hty' as (s0 & sigs' & H0 & Hrest & ->).
  destruct (homogeneity_decides arg0 rest s0 sigs' H0 Hrest) as (b & Hb & Hiff).
  rewrite <- homogeneous_head in Hiff.
  assert (Hs0 : shaped s0) by (inversion Hshaped; assumption).
  unfold PythonList_init, PythonTuple_init. simpl is_syntactic. cbv iota.
  rewrite Hb, Hty. cbn [bind].
  destruct b.
  - assert (Hh : Forall (fun s => dtype s <> NativeGeneric) (s0 :: sigs')
                 /\ pairwise_identical (s0 :: sigs')) by (apply Hiff; reflexivity).
    destruct (homogeneous_sig_succeeds arg0 (arg0 :: rest) s0
                (Some NativeHomogeneousList) H0 Hs0) as (sg & Hsg).
    rewrite Hsg. cbn [bind]. split; [split|split].
    + discriminate.
    + intros Hn. contradiction.
    + intros _. eauto.
    + intros Hn. contradiction.
  - assert (Hh : ~ (Forall (fun s => dtype s <> NativeGeneric) (s0 :: sigs')
                    /\ pairwise_identical (s0 :: sigs'))).
    { intros Hh. apply Hiff in Hh. discriminate. }
    split; [split|split].
    + intros _. exact Hh.
    + intros _. reflexivity.
    + intros Hyes. contradiction.
    + intros _.
      destruct (max_rank (s0 :: sigs')) as [|m] eqn:Hmax.
      * (* every element is a scalar *)
        cbn. eexists. split; [reflexivity|]. split; [reflexivity|].
        intros Hdiff. exfalso. apply Hdiff. intros s s' Hs Hs'.
        pose proof (rank_le_max_rank (s0 :: sigs') s Hs) as L1.
        pose proof (rank_le_max_rank (s0 :: sigs') s' Hs') as L2.
        rewrite Hmax in L1, L2. lia.
      * replace (Nat.eqb (S (S m)) 1) with false by reflexivity.
        destruct (existsb (fun s => negb (Nat.eqb (rank s) (S m))) (s0 :: sigs')) eqn:Hex.
        -- cbn [bind prepend_count]. eexists.
           split; [reflexivity|]. split; [reflexivity|].
           intros _. unfold node_shape, attribute, typed. cbn.
           rewrite ?Nat.sub_0_r. reflexivity.
        -- rewrite <- Hmax in Hex.
           pose proof (ranks_equal_of_no_gap _ Hex) as Heq.
           assert (Hr0 : rank s0 = S m).
           { rewrite <- Hmax. apply Nat.eqb_eq.
             destruct (Nat.eqb (rank s0) (max_rank (s0 :: sigs'))) eqn:E; [reflexivity|].
             cbn [existsb] in Hex. rewrite E in Hex. discriminate. }
           rewrite H0. cbn [bind].
           destruct (shape s0) as [shp|] eqn:Hshape.
           ++ cbn [bind prepend_count]. eexists.
              split; [reflexivity|]. split; [reflexivity|].
              intros Hdiff. exfalso. apply Hdiff, Heq.
           ++ exfalso. apply Hs0; [lia | exact Hshape].
Qed.


Lemma known_lengths_static args dims :
  map_m first_dimension args = Ok dims ->
  known_lengths args = Ok (static_lengths dims).
Proof.
  revert dims. induction args as [|a args IH]; intros dims H.
  - injection H as <-. reflexivity.
  - apply map_m_cons_inv in H as (d & ds & Ha & Hds & ->).
    simpl. rewrite Ha, (IH ds Hds). simpl.
    destruct d as [[]|]; reflexivity.
Qed.

Lemma min_of_least n ns :
  In (min_of n ns) (n :: ns) /\ Forall (fun v => min_of n ns <= v) (n :: ns).
Proof.
  unfold min_of. induction ns as [|x ns [IHin IHle]]; simpl.
  - split; [left; reflexivity | repeat constructor; lia].
  - split.
    + destruct (Z.min_spec x (foldr Z.min n ns)) as [[_ ->]|[_ ->]].
      * right; left; reflexivity.
      * destruct IHin as [<-|Hin]; [left; reflexivity | right; right; exact Hin].
    + inversion IHle as [|? ? Hn Hns]; subst.
      constructor; [lia|]. constructor; [lia|].
      eapply Forall_impl; [exact Hns|]. simpl. intros v Hv. lia.
Qed.

(** C8 (as the code has it). A zip over at least two sources that all
    have a first dimension has for length the least of the first
    dimensions that are integer literals; when none is, its length is
    the first dimension of the first source. *)
Theorem zip_length_law (a0 : node) (others : list node)
    (d0 : option node) (ds : list (option node)) :
  (2 <= length (a0 :: others))%nat ->
  map_m first_dimension (a0 :: others) = Ok (d0 :: ds) ->
  exists z, PythonZip_init Semantic (a0 :: others) = Ok z
    /\ match static_lengths (d0 :: ds) with
       | [] =>
           zip_length z = Ok (match d0 with Some e => ExprLength e | None => NoLength end)
       | known =>
           exists m, zip_length z = Ok (IntLength m)
             /\ In m known /\ Forall (fun v => m <= v) known
       end.
Proof.
  intros Hlen Hdims. unfold PythonZip_init.
  replace (length (a0 :: others) <? 2)%nat with false
    by (symmetry; apply Nat.ltb_ge; exact Hlen).
  simpl is_syntactic. cbv iota.
  rewrite (known_lengths_static _ _ Hdims). cbn [bind].
  destruct (static_lengths (d0 :: ds)) as [|n ns] eqn:Hst.
  - apply map_m_cons_inv in Hdims as (d & ds' & Ha & _ & [= <- <-]).
    rewrite Ha. cbn [bind]. eexists. split; reflexivity.
  - eexists. split; [reflexivity|]. exists (min_of n ns).
    split; [reflexivity|]. apply min_of_least.
Qed.

(** *** The binding layer *)

(** What the constructors rely on from the naming scope: a name that
    is free in the scope is granted as requested, and granting it
    leaves every other free name free. *)
Variable free : Scope -> string -> Prop.
Hypothesis free_name_granted : forall s d n,
  free s n -> name (fst (get_temporary_variable s d n)) = n.
Hypothesis free_preserved : forall s d n m,
  free s n -> free s m -> m <> n -> free (snd (get_temporary_variable s d n)) m.

Lemma temporaries_length fmt indices scope :
  length (fst (temporaries fmt indices scope)) = length indices.
Proof.
  revert scope. induction indices as [|i rest IH]; intros scope; [reflexivity|].
  simpl. destruct (get_temporary_variable scope NativeInteger (fmt i)) as [v scope1].
  specialize (IH scope1). destruct (temporaries fmt rest scope1) as [vs scope2].
  simpl in *. f_equal. exact IH.
Qed.

Lemma temporaries_granted fmt indices scope :
  NoDup (map fmt indices) ->
  Forall (free scope) (map fmt indices) ->
  map name (fst (temporaries fmt indices scope)) = map fmt indices
  /\ forall m, free scope m -> ~ In m (map fmt indices) ->
       free (snd (temporaries fmt indices scope)) m.
Proof.
  revert scope. induction indices as [|i rest IH]; intros scope Hnd Hfree.
  - split; [reflexivity | intros m Hm _; exact Hm].
  - simpl in Hnd, Hfree. apply NoDup_cons in Hnd as [Hi Hnd].
    inversion Hfree as [|? ? Hfi Hfrest]; subst.
    pose proof (free_name_granted scope NativeInteger (fmt i) Hfi) as Hname.
    pose proof (free_preserved scope NativeInteger (fmt i)) as Hkeep.
    simpl. destruct (get_temporary_variable scope NativeInteger (fmt i)) as [v scope1].
    simpl in Hname, Hkeep.
    assert (Hfree1 : Forall (free scope1) (map fmt rest)).
    { rewrite Forall_forall in Hfrest. apply Forall_forall. intros m Hm.
      apply Hkeep; [exact Hfi | apply Hfrest, Hm |].
      intros ->. apply Hi. exact Hm. }
    destruct (IH scope1 Hnd Hfree1) as [IHn IHf].
    destruct (temporaries fmt rest scope1) as [vs scope2]. simpl in *.
    split; [rewrite Hname, IHn; reflexivity|].
    intros m Hm Hnot. apply IHf.
    + apply Hkeep; [exact Hfi | exact Hm | intros ->; apply Hnot; left; reflexivity].
    + intros Hin. apply Hnot. right. exact Hin.
Qed.

Lemma shape_name_inj name i j : shape_name name i = shape_name name j -> i = j.
Proof.
  unfold shape_name. intros H.
  apply (inj (String.app name)), (inj (String.app "_shape_")), (inj pretty) in H. lia.
Qed.

Lemma stride_name_inj name i j : stride_name name i = stride_name name j -> i = j.
Proof.
  unfold stride_name. intros H.
  apply (inj (String.app name)), (inj (String.app "_stride_")), (inj pretty) in H. lia.
Qed.

Lemma shape_name_not_stride name i j : shape_name name i <> stride_name name j.
Proof.
  unfold shape_name, stride_name. intros H.
  apply (inj (String.app name)) in H. discriminate H.
Qed.

Lemma NoDup_names (fmt : nat -> string) r :
  (forall i j, fmt i = fmt j -> i = j) -> NoDup (map fmt (range r)).
Proof.
  intros Hinj. apply NoDup_fmap_2_strong; [|apply NoDup_seq].
  intros i j _ _. apply Hinj.
Qed.

(** Indices [i + 1] for [i] in [range(r)] are the indices [1 .. r]. *)
Lemma names_from_one (f : nat -> string) r :
  map (fun i => f (i + 1)%nat) (range r) = map f (seq 1 r).
Proof.
  unfold range. rewrite <- seq_shift, map_map.
  apply map_ext. intros i. rewrite Nat.add_1_r. reflexivity.
Qed.

Lemma list_times_false r : list_times [false; false] r = repeat false (2 * r).
Proof.
  unfold list_times. induction r as [|r IH]; [reflexivity|].
  simpl. rewrite IH. replace (r + S (r + 0))%nat with (S (2 * r)) by lia.
  reflexivity.
Qed.

(** C3 (as the code has it).  The wrapper of an argument whose
    original variable has rank
    [r] expands to [1 + 2r] descriptors: itself, then the [r] shape
    variables, then the [r] stride variables; the wrapper of a rank-[r]
    result expands to [1 + r] descriptors, itself and the shape
    variables.  When the names are free in the scope, the variables
    are named [{name}_shape_{i}] and [{name}_stride_{i}], [i = 1..r]. *)
Theorem binding_descriptors
    (var original_arg_var res original_res_var : variable node)
    (scope : Scope) (flag : bool) :
  let w := fst (BindCFunctionDefArgument_init var scope original_arg_var flag) in
  let r := rank (ty original_arg_var) in
  let w' := fst (BindCFunctionDefResult_init res original_res_var scope) in
  let r' := rank (ty original_res_var) in
  (get_all_function_def_arguments w
   = [ArgSelf w] ++ map FunctionDefArgument (arg_shape w)
                 ++ map FunctionDefArgument (arg_strides w)
   /\ length (arg_shape w) = r /\ length (arg_strides w) = r
   /\ length (get_all_function_def_arguments w) = (1 + 2 * r)%nat
   /\ ((forall i, (i < r)%nat ->
          free scope (shape_name (name var) i)
          /\ free scope (stride_name (name var) i)) ->
       map name (arg_shape w)
       = map (fun i => name var +:+ "_shape_" +:+ pretty i) (seq 1 r)
       /\ map name (arg_strides w)
         = map (fun i => name var +:+ "_stride_" +:+ pretty i) (seq 1 r)))
  /\ (get_all_function_def_results w'
      = [ResSelf w'] ++ map FunctionDefResult (res_shape w')
      /\ length (res_shape w') = r'
      /\ length (get_all_function_def_results w') = (1 + r')%nat
      /\ ((forall i, (i < r')%nat ->
             free scope (shape_name (name original_res_var) i)) ->
          map name (res_shape w')
          = map (fun i => name original_res_var +:+ "_shape_" +:+ pretty i)
                (seq 1 r'))).
Proof.
  intros w r w' r'. subst w w'.
  unfold BindCFunctionDefArgument_init, BindCFunctionDefResult_init.
  fold r r'.
  pose proof (temporaries_length (shape_name (name var)) (range r) scope) as Lsh.
  pose proof (temporaries_granted (shape_name (name var)) (range r) scope) as Gsh.
  destruct (temporaries (shape_name (name var)) (range r) scope)
    as [shape scope1] eqn:Esh.
  pose proof (temporaries_length (stride_name (name var)) (range r) scope1) as Lst.
  pose proof (temporaries_granted (stride_name (name var)) (range r) scope1) as Gst.
  destruct (temporaries (stride_name (name var)) (range r) scope1)
    as [strides scope2] eqn:Est.
  pose proof (temporaries_length (shape_name (name original_res_var)) (range r') scope)
    as Lrs.
  pose proof (temporaries_granted (shape_name (name original_res_var)) (range r') scope)
    as Grs.
  destruct (temporaries (shape_name (name original_res_var)) (range r') scope)
    as [rshape rscope] eqn:Ers.
  unfold range in Lsh, Lst, Lrs. rewrite length_seq in Lsh, Lst, Lrs.
  cbn [fst snd] in *.
  unfold get_all_function_def_arguments, get_all_function_def_results.
  cbn [arg_shape arg_strides res_shape].
  assert (Hfree_of : forall (fmt : nat -> string) n sc,
             (forall i, (i < n)%nat -> free sc (fmt i)) ->
             Forall (free sc) (map fmt (range n))).
  { intros fmt n sc H. apply Forall_forall. intros m Hm.
    apply list_elem_of_In, in_map_iff in Hm as (i & <- & Hi).
    apply H. apply in_seq in Hi. lia. }
  split; [split; [|split; [|split; [|split]]] | split; [|split; [|split]]].
  - rewrite <- app_assoc. reflexivity.
  - exact Lsh.
  - exact Lst.
  - rewrite !length_app, !length_map, Lsh, Lst. simpl. lia.
  - intros Hfree.
    destruct Gsh as [Nsh Ksh].
    { apply NoDup_names. apply shape_name_inj. }
    { apply Hfree_of. intros i Hi. apply Hfree, Hi. }
    destruct Gst as [Nst _].
    { apply NoDup_names. apply stride_name_inj. }
    { apply Hfree_of. intros i Hi. apply Ksh; [apply Hfree, Hi|].
      intros Hin. apply in_map_iff in Hin as (j & Hj & _).
      exact (shape_name_not_stride _ _ _ Hj). }
    rewrite Nsh, Nst. unfold shape_name, stride_name.
    split; apply (names_from_one (fun i => _ +:+ _ +:+ pretty i)).
  - reflexivity.
  - exact Lrs.
  - rewrite length_app, length_map, Lrs. simpl. lia.
  - intros Hfree. destruct Grs as [Nrs _].
    { apply NoDup_names. apply shape_name_inj. }
    { apply Hfree_of. exact Hfree. }
    rewrite Nrs. unfold shape_name.
    apply (names_from_one (fun i => _ +:+ _ +:+ pretty i)).
Qed.

(** C4 (as the code has it). For a wrapper over a scalar the property
    [inout] is the flag the caller gave; for a wrapper over an array
    of rank [r] it is a list of [1 + 2r] flags, all false: the one of
    the data and those of the shape and stride variables. *)
Theorem inout_of_wrapper (var original_arg_var : variable node)
    (scope : Scope) (flag : bool) :
  let w := fst (BindCFunctionDefArgument_init var scope original_arg_var flag) in
  let r := rank (ty original_arg_var) in
  (r = 0%nat -> inout w = InoutFlag flag)
  /\ (r <> 0%nat -> inout w = InoutList (repeat false (1 + 2 * r))).
Proof.
  intros w r. subst w. unfold BindCFunctionDefArgument_init. fold r.
  destruct (temporaries (shape_name (name var)) (range r) scope) as [shape scope1].
  destruct (temporaries (stride_name (name var)) (range r) scope1) as [strides scope2].
  unfold inout. cbn [fst arg_rank arg_base_inout]. split.
  - intros ->. reflexivity.
  - intros Hr. apply Nat.eqb_neq in Hr. rewrite Hr. cbn [negb].
    rewrite list_times_false. reflexivity.
Qed.

(** ** Further properties of the builtin nodes *)

(** X1. Casting a literal twice is casting it once: the second
    [float] of an integer or float literal returns its operand and
    allocates nothing, the second [int] of an integer literal rebuilds
    the same literal, and [float(int(k))] is [float(k)] for an integer
    literal [k].  On any other operand a second cast wraps again. *)
Theorem casts_of_literals_are_idempotent (x : node) :
  (forall b, PythonFloat_new x = Ok b ->
     match x with
     | LiteralInteger _ _ | LiteralFloat _ _ =>
         PythonFloat_new (node_of b) = Ok (Existing (node_of b))
     | _ =>
         b = Fresh (PythonFloat x)
         /\ PythonFloat_new (node_of b) = Ok (Fresh (PythonFloat (PythonFloat x)))
     end)
  /\ (match x with
      | LiteralInteger _ _ =>
          PythonInt_new (node_of (PythonInt_new x)) = PythonInt_new x
          /\ PythonFloat_new (node_of (PythonInt_new x)) = PythonFloat_new x
      | LiteralFloat _ _ =>
          PythonInt_new (node_of (PythonInt_new x)) = Fresh (PythonInt (PythonInt x))
      | _ =>
          PythonFloat_new x = Ok (Fresh (PythonFloat x))
          /\ PythonInt_new (node_of (PythonInt_new x)) = Fresh (PythonInt (PythonInt x))
      end).
Proof.
  split.
  - intros b. unfold PythonFloat_new, LiteralFloat_init.
    destruct x; try (intros [= <-]; split; reflexivity).
    + destruct (py_float _); cbn [bind]; [|discriminate]. intros [= <-]. reflexivity.
    + destruct (prec =? -1) eqn:E.
      * intros [= <-]. cbn [node_of]. rewrite E. reflexivity.
      * destruct (py_float _); cbn [bind]; [|discriminate]. intros [= <-]. reflexivity.
  - destruct x; simpl; repeat split; reflexivity.
Qed.

(** X2. On two typed operands that are not both literals,
    [complex(a, b)] does not raise and returns neither operand: it
    builds the sum [a + b * 1j], with the imaginary unit the complex
    literal of parts [float(0)] and [float(1)], when both operands are
    of complex kind, and the node [PythonComplex(a, b)] in every other
    case.  On two literals whatever it returns is a new complex
    literal at the default precision. *)
Theorem PythonComplex_new_on_typed (arg0 arg1 : node) (s0 s1 : typesig node)
    (zero one : num) :
  sig_of arg0 = Some s0 ->
  sig_of arg1 = Some s1 ->
  py_float (py_int 0) = Ok zero ->
  py_float (py_int 1) = Ok one ->
  (is_Literal arg0 && is_Literal arg1 = false ->
     PythonComplex_new arg0 (Some arg1)
     = Ok (Fresh (if is_NativeComplex (dtype s0) && is_NativeComplex (dtype s1)
                  then PyccelAdd arg0 (PyccelMul arg1 (LiteralComplex zero one (-1)))
                  else PythonComplex arg0 arg1)))
  /\ (is_Literal arg0 && is_Literal arg1 = true ->
      forall b, PythonComplex_new arg0 (Some arg1) = Ok b ->
        exists re im, b = Fresh (LiteralComplex re im (-1))).
Proof.
  intros H0 H1 Hz Ho. split.
  - intros Hlit. unfold PythonComplex_new. cbn [bind]. rewrite Hlit.
    assert (D0 : node_dtype arg0 = Ok (dtype s0))
      by (unfold node_dtype, attribute, typed; rewrite H0; reflexivity).
    assert (D1 : node_dtype arg1 = Ok (dtype s1))
      by (unfold node_dtype, attribute, typed; rewrite H1; reflexivity).
    rewrite D0. cbn [bind].
    destruct (is_NativeComplex (dtype s0)); cbn [andb bind]; [|reflexivity].
    rewrite D1. cbn [bind].
    destruct (is_NativeComplex (dtype s1)); [|reflexivity].
    unfold LiteralImaginaryUnit, LiteralComplex_init. rewrite Hz, Ho. reflexivity.
  - intros Hlit b. unfold PythonComplex_new, LiteralComplex_init. cbn [bind].
    rewrite Hlit. clear H0 H1.
    destruct arg0; try discriminate Hlit; destruct arg1; try discriminate Hlit;
      cbn [python_value_of bind];
      repeat match goal with
             | |- context [py_add ?x ?y] =>
                 destruct (py_add x y); cbn [bind fst snd]; [|discriminate]
             | |- context [py_sub ?x ?y] =>
                 destruct (py_sub x y); cbn [bind fst snd]; [|discriminate]
             | |- context [py_float ?x] =>
                 destruct (py_float x) eqn:?; cbn [bind fst snd]; [|discriminate]
             end;
      intros [= <-]; eauto.
Qed.

(** X3. [abs(x)] keeps the shape, rank and order of [x]; its kind is
    integer when [x] is of integer kind and float in every other case
    (also for a complex or boolean [x]); and taking [abs] once more
    succeeds and leaves the type signature unchanged. *)
Theorem PythonAbs_init_signature (x a : node) :
  PythonAbs_init x = Ok a ->
  (exists sg, sig_of a = Some sg
     /\ (dtype sg = NativeInteger \/ dtype sg = NativeFloat)
     /\ (dtype sg = NativeInteger <-> node_dtype x = Ok NativeInteger)
     /\ node_shape x = Ok (shape sg)
     /\ node_rank x = Ok (rank sg)
     /\ node_order x = Ok (order sg))
  /\ exists a', PythonAbs_init a = Ok a' /\ sig_of a' = sig_of a.
Proof.
  unfold PythonAbs_init, node_shape, node_rank, node_dtype, node_order, attribute.
  destruct (typed x) as [s|e] eqn:Hx; [|discriminate]. cbn [bind].
  destruct (node_class_type x) as [ct|e] eqn:Hct; [|discriminate]. cbn [bind].
  intros [= <-]. split.
  - eexists. split; [reflexivity|]. cbn.
    destruct (datatype_eqb (dtype s) NativeInteger) eqn:E.
    + apply datatype_eqb_eq in E. rewrite E.
      repeat split; auto.
    + repeat split; auto; [discriminate|].
      intros [= Hd]. apply datatype_eqb_eq in Hd. congruence.
  - cbn. eexists. split; [reflexivity|]. cbn.
    destruct (datatype_eqb (dtype s) NativeInteger); reflexivity.
Qed.

(** X4. On an operand that is not of complex kind, [.real] and
    [.conjugate()] return the same thing and build no accessor node:
    the operand itself, or, when the operand is boolean,
    [int(operand)], a new [PythonInt] node around it. *)
Theorem accessors_of_a_real_operand (arg : node) (d : datatype) :
  node_dtype arg = Ok d ->
  d <> NativeComplex ->
  PythonReal_new arg = PythonConjugate_new arg
  /\ PythonReal_new arg
     = Ok (Simplified (if is_NativeBool d then PythonInt_new arg else Existing arg))
  /\ (d = NativeBool -> PythonReal_new arg = Ok (Simplified (Fresh (PythonInt arg))))
  /\ (forall r, PythonReal_new arg = Ok r -> forall a, r <> Accessor a).
Proof.
  intros Hd Hc.
  assert (Hb : d = NativeBool -> PythonInt_new arg = Fresh (PythonInt arg)).
  { intros ->. destruct arg; try reflexivity.
    unfold node_dtype, attribute in Hd. simpl in Hd. discriminate Hd. }
  revert Hb. unfold PythonReal_new, PythonConjugate_new.
  rewrite Hd. cbn [bind]. intros Hb.
  assert (Hn : is_NativeComplex d = false).
  { unfold is_NativeComplex. destruct (datatype_eqb d NativeComplex) eqn:E; [|reflexivity].
    apply datatype_eqb_eq in E. contradiction. }
  rewrite Hn. cbn [negb]. unfold is_NativeBool.
  destruct (datatype_eqb d NativeBool) eqn:Eb.
  - apply datatype_eqb_eq in Eb. split; [reflexivity|]. split; [reflexivity|]. split.
    + intros _. rewrite (Hb Eb). reflexivity.
    + intros r [= <-] a. discriminate.
  - split; [reflexivity|]. split; [reflexivity|]. split.
    + intros ->. rewrite datatype_eqb_refl in Eb. discriminate.
    + intros r [= <-] a. discriminate.
Qed.

(** X5. The kind of what [.real] returns is never boolean and never
    complex; the kind of what [.conjugate()] returns is never boolean,
    and is complex exactly when the operand is. *)
Theorem accessor_kinds (arg : node) (r : accessor_built) :
  (PythonReal_new arg = Ok r ->
     exists d, accessor_dtype NativeFloat r = Ok d
       /\ d <> NativeBool /\ d <> NativeComplex)
  /\ (PythonConjugate_new arg = Ok r ->
      exists d, accessor_dtype NativeComplex r = Ok d
        /\ d <> NativeBool
        /\ (d = NativeComplex <-> node_dtype arg = Ok NativeComplex)).
Proof.
  unfold PythonReal_new, PythonConjugate_new.
  destruct (node_dtype arg) as [d|e] eqn:Hd; cbn [bind]; [|split; discriminate].
  assert (Hint : node_dtype (node_of (PythonInt_new arg)) = Ok NativeInteger)
    by (destruct arg; reflexivity).
  unfold is_NativeBool, is_NativeComplex.
  destruct (datatype_eqb d NativeBool) eqn:Eb;
    [|destruct (datatype_eqb d NativeComplex) eqn:Ec]; cbn [negb];
    split; intros [= <-]; cbn [accessor_dtype node_of]; rewrite ?Hint, ?Hd;
    eexists; (split; [reflexivity|]).
  - split; discriminate.
  - split; [discriminate|]. split; [discriminate|].
    apply datatype_eqb_eq in Eb. intros [= ->]. discriminate Eb.
  - split; discriminate.
  - split; [discriminate|]. apply datatype_eqb_eq in Ec. subst d. split; reflexivity.
  - split; intros ->; [rewrite datatype_eqb_refl in Eb | rewrite datatype_eqb_refl in Ec];
      discriminate.
  - split; [intros ->; rewrite datatype_eqb_refl in Eb; discriminate|].
    split; [intros ->; rewrite datatype_eqb_refl in Ec; discriminate|].
    intros [= ->]. rewrite datatype_eqb_refl in Ec. discriminate.
Qed.

(** *** Aggregates built from well-shaped elements *)

Lemma well_shaped_shaped s : well_shaped s -> shaped s.
Proof.
  unfold well_shaped, shaped. intros H Hr Hs. rewrite Hs in H. simpl in H. lia.
Qed.

Lemma max_rank_uniform s0 rest :
  Forall (agrees s0) rest -> max_rank (s0 :: rest) = rank s0.
Proof.
  unfold max_rank. induction 1 as [|s rest (_ & _ & Hr & _) _ IH]; simpl in *; lia.
Qed.

Lemma max_rank_Permutation sigs sigs' :
  Permutation sigs sigs' -> max_rank sigs = max_rank sigs'.
Proof.
  unfold max_rank. induction 1; simpl; lia.
Qed.

(** What [PythonTuple.__init__] and [PythonList.__init__] build from
    typed, well-shaped elements. *)
Lemma aggregates_of_well_shaped arg0 rest s0 sigs' :
  map_m typed (arg0 :: rest) = Ok (s0 :: sigs') ->
  Forall well_shaped (s0 :: sigs') ->
  let args := arg0 :: rest in
  let sigs := s0 :: sigs' in
  exists b sg tail,
    PythonTuple_init Semantic args = Ok (PythonTuple args (Some (b, sg)))
    /\ (b = true <-> Forall (fun s => dtype s <> NativeGeneric) sigs
                     /\ pairwise_identical sigs)
    /\ shape sg = Some (Some (LiteralInteger (Z.of_nat (length args)) (-1)) :: tail)
    /\ length tail = max_rank sigs
    /\ rank sg = S (max_rank sigs)
    /\ order sg = order_of_rank (S (max_rank sigs))
    /\ (if b
        then dtype sg = dtype s0 /\ precision sg = precision s0
             /\ PythonList_init Semantic args
                = Ok (PythonList args
                        (Some (TypeSig (dtype sg) (precision sg) (rank sg) (shape sg)
                                 (order sg) (Some NativeHomogeneousList))))
        else dtype sg = NativeInhomogeneousTuple (map dtype sigs)
             /\ precision sg = 0
             /\ PythonList_init Semantic args
                = Raise (TypeError "Can't create an inhomogeneous list")).
Proof.
  intros Hty Hws args sigs. subst args sigs.
  pose proof Hty as Hty'.
  apply map_m_cons_inv in Hty' as (s0' & sg' & H0 & Hrest & [= <- <-]).
  destruct (homogeneity_decides arg0 rest s0 sigs' H0 Hrest) as (b & Hb & Hiff).
  assert (Hw0 : well_shaped s0) by (inversion Hws; assumption).
  unfold PythonTuple_init, PythonList_init. simpl is_syntactic. cbv iota.
  rewrite Hb, Hty. cbn [bind].
  destruct b.
  - (* homogeneous *)
    assert (Hag : Forall (agrees s0) sigs') by (apply Hiff; reflexivity).
    pose proof (max_rank_uniform s0 sigs' Hag) as Hmax.
    unfold homogeneous_sig. rewrite H0. cbn [bind].
    assert (Hin : exists tail,
               (if Nat.eqb (rank s0) 0 then Some [] else shape s0) = Some tail
               /\ length tail = rank s0).
    { unfold well_shaped in Hw0. destruct (Nat.eqb (rank s0) 0) eqn:E.
      - apply Nat.eqb_eq in E. exists []. split; [reflexivity | simpl; lia].
      - apply Nat.eqb_neq in E. destruct (shape s0) as [l|]; simpl in Hw0; [|lia].
        exists l. split; [reflexivity | lia]. }
    destruct Hin as (tail & -> & Hlen). cbn [bind prepend_count].
    eexists true, _, tail. split; [reflexivity|].
    split; [rewrite homogeneous_head; exact Hiff|].
    cbn [shape rank order dtype precision length].
    rewrite Hmax, Hlen. repeat split; reflexivity.
  - (* inhomogeneous *)
    assert (Hsh : forall r, rank s0 = S r ->
               exists l, shape s0 = Some l /\ length l = S r).
    { intros r Hr. unfold well_shaped in Hw0.
      destruct (shape s0) as [l|]; simpl in Hw0; [|lia]. exists l. split; [reflexivity|lia]. }
    destruct (max_rank (s0 :: sigs')) as [|m] eqn:Hmax.
    + cbn. eexists false, _, []. split; [reflexivity|].
      split; [rewrite homogeneous_head; exact Hiff|].
      cbn. rewrite ?Hmax. repeat split; reflexivity.
    + replace (Nat.eqb (S (S m)) 1) with false by reflexivity.
      destruct (existsb (fun s => negb (Nat.eqb (rank s) (S m))) (s0 :: sigs')) eqn:Hex.
      * cbn [bind prepend_count]. eexists false, _, (repeat None (S (S m) - 1)).
        split; [reflexivity|]. split; [rewrite homogeneous_head; exact Hiff|].
        cbn [shape rank order dtype precision].
        rewrite repeat_length. repeat split; reflexivity.
      * assert (Hr0 : rank s0 = S m).
        { apply Nat.eqb_eq.
          destruct (Nat.eqb (rank s0) (S m)) eqn:E; [reflexivity|].
          cbn [existsb] in Hex. rewrite E in Hex. discriminate. }
        destruct (Hsh m Hr0) as (l & Hl & Hlen).
        rewrite H0. cbn [bind]. rewrite Hl. cbn [bind prepend_count].
        eexists false, _, l. split; [reflexivity|].
        split; [rewrite homogeneous_head; exact Hiff|].
        cbn [shape rank order dtype precision].
        repeat split; try reflexivity. exact Hlen.
Qed.

Lemma map_m_Permutation {A B} (f : A -> result B) l l' bs :
  Permutation l l' -> map_m f l = Ok bs ->
  exists bs', map_m f l' = Ok bs' /\ Permutation bs bs'.
Proof.
  intros Hp. revert bs. induction Hp as [|a l l' _ IH|a b l|l l' l'' _ IH1 _ IH2]; intros bs H.
  - exists bs. split; [exact H | reflexivity].
  - apply map_m_cons_inv in H as (b & bs1 & Ha & Hl & ->).
    destruct (IH bs1 Hl) as (bs2 & H2 & P2).
    exists (b :: bs2). simpl. rewrite Ha, H2. split; [reflexivity | constructor; exact P2].
  - apply map_m_cons_inv in H as (y & bs1 & Hb & Hl & ->).
    apply map_m_cons_inv in Hl as (x & bs2 & Ha & Hl & ->).
    exists (x :: y :: bs2). simpl. rewrite Ha, Hb, Hl. split; [reflexivity | constructor].
  - destruct (IH1 bs H) as (bs1 & H1 & P1). destruct (IH2 bs1 H1) as (bs2 & H2 & P2).
    exists bs2. split; [exact H2 | etransitivity; eassumption].
Qed.

Lemma pairwise_identical_Permutation sigs sigs' :
  Permutation sigs sigs' -> pairwise_identical sigs -> pairwise_identical sigs'.
Proof.
  intros Hp H s s' Hs Hs'. apply H.
  - apply list_elem_of_In. rewrite Hp. apply list_elem_of_In. exact Hs.
  - apply list_elem_of_In. rewrite Hp. apply list_elem_of_In. exact Hs'.
Qed.

(** X6. Built from one or more typed elements whose rank is the
    length of their shape, a tuple is always constructed, and its own
    rank is the length of its shape: one more than the largest rank of
    the elements, the first dimension being the literal count of the
    elements; its order is row-major from rank 2 on.  A list built
    from the same elements has the same rank, shape and order. *)
Theorem aggregate_keeps_well_shaped (arg0 : node) (rest : list node)
    (sigs : list (typesig node)) :
  map_m typed (arg0 :: rest) = Ok sigs ->
  Forall well_shaped sigs ->
  let args := arg0 :: rest in
  exists t st,
    PythonTuple_init Semantic args = Ok t
    /\ sig_of t = Some st
    /\ well_shaped st
    /\ rank st = S (max_rank sigs)
    /\ first_dimension t = Ok (Some (LiteralInteger (Z.of_nat (length args)) (-1)))
    /\ order st = (if (2 <=? rank st)%nat then Some order_C else None)
    /\ forall l, PythonList_init Semantic args = Ok l ->
         exists sl, sig_of l = Some sl
           /\ rank sl = rank st /\ shape sl = shape st /\ order sl = order st.
Proof.
  intros Hty Hws args. subst args.
  pose proof Hty as Hty'.
  apply map_m_cons_inv in Hty' as (s0 & sigs' & _ & _ & ->).
  destruct (aggregates_of_well_shaped arg0 rest s0 sigs' Hty Hws)
    as (b & sg & tail & Ht & _ & Hshape & Hlen & Hrank & Horder & Hb).
  exists (PythonTuple (arg0 :: rest) (Some (b, sg))), sg.
  split; [exact Ht|]. split; [reflexivity|].
  split; [unfold well_shaped; rewrite Hshape, Hrank; simpl; lia|].
  split; [exact Hrank|].
  split; [unfold first_dimension, node_shape, attribute, typed; cbn; rewrite Hshape;
          reflexivity|].
  split.
  { rewrite Horder, Hrank. unfold order_of_rank.
    destruct (max_rank (s0 :: sigs')); reflexivity. }
  intros l Hl. destruct b.
  - destruct Hb as (_ & _ & Hlist). rewrite Hlist in Hl. injection Hl as <-.
    eexists. split; [reflexivity|]. repeat split.
  - destruct Hb as (_ & _ & Hlist). rewrite Hlist in Hl. discriminate.
Qed.

(** X7. In a homogeneous tuple built from typed elements, every
    element has the kind of the tuple and the final precision of the
    tuple (the tuple takes the precision written on its first element),
    and a rank one less than the tuple's. *)
Theorem homogeneous_tuple_elements (arg0 : node) (rest : list node)
    (sigs : list (typesig node)) (t : node) (st : typesig node) :
  map_m typed (arg0 :: rest) = Ok sigs ->
  Forall well_shaped sigs ->
  PythonTuple_init Semantic (arg0 :: rest) = Ok t ->
  is_homogeneous t = Ok true ->
  sig_of t = Some st ->
  Forall (fun s => dtype s = dtype st
                   /\ final_precision (dtype s) (precision s)
                      = final_precision (dtype st) (precision st)
                   /\ S (rank s) = rank st) sigs.
Proof.
  intros Hty Hws Ht Hh Hst.
  pose proof Hty as Hty'.
  apply map_m_cons_inv in Hty' as (s0 & sigs' & _ & _ & ->).
  destruct (aggregates_of_well_shaped arg0 rest s0 sigs' Hty Hws)
    as (b & sg & tail & Ht' & Hiff & _ & _ & Hrank & _ & Hb).
  rewrite Ht' in Ht. injection Ht as <-. cbn in Hh, Hst.
  injection Hh as ->. injection Hst as <-.
  destruct Hb as (Hd & Hp & _).
  destruct (proj1 Hiff eq_refl) as [_ Hpair].
  apply pairwise_identical_head in Hpair.
  rewrite Hrank, (max_rank_uniform s0 sigs' Hpair), Hd, Hp.
  constructor; [repeat split|].
  eapply Forall_impl; [exact Hpair|].
  intros s (Hds & Hps & Hrs & _). cbn. rewrite Hds, Hrs, <- Hps, Hds.
  repeat split.
Qed.

(** X8. Whether a tuple is homogeneous, its rank and its order do not
    depend on the order of its elements, although every element is
    compared with the first one; and a list can be built from the
    elements in one order exactly when it can in any other. *)
Theorem homogeneity_order_independent (arg0 : node) (rest args' : list node)
    (sigs : list (typesig node)) :
  Permutation (arg0 :: rest) args' ->
  map_m typed (arg0 :: rest) = Ok sigs ->
  Forall well_shaped sigs ->
  exists t t',
    PythonTuple_init Semantic (arg0 :: rest) = Ok t
    /\ PythonTuple_init Semantic args' = Ok t'
    /\ is_homogeneous t = is_homogeneous t'
    /\ node_rank t = node_rank t'
    /\ node_order t = node_order t'
    /\ ((exists l, PythonList_init Semantic (arg0 :: rest) = Ok l)
        <-> (exists l', PythonList_init Semantic args' = Ok l')).
Proof.
  intros Hperm Hty Hws.
  destruct (map_m_Permutation typed _ _ _ Hperm Hty) as (sigs2 & Hty2 & Hp2).
  assert (Hws2 : Forall well_shaped sigs2) by (rewrite <- Hp2; exact Hws).
  destruct args' as [|arg0' rest'];
    [apply Permutation_nil_r in Hperm; discriminate|].
  pose proof Hty as Hty'.
  apply map_m_cons_inv in Hty' as (s0 & sigs' & _ & _ & ->).
  pose proof Hty2 as Hty2'.
  apply map_m_cons_inv in Hty2' as (s0' & sigs2' & _ & _ & ->).
  destruct (aggregates_of_well_shaped arg0 rest s0 sigs' Hty Hws)
    as (b & sg & tail & Ht & Hiff & _ & _ & Hrank & Horder & Hb).
  destruct (aggregates_of_well_shaped arg0' rest' s0' sigs2' Hty2 Hws2)
    as (b' & sg' & tail' & Ht' & Hiff' & _ & _ & Hrank' & Horder' & Hb').
  assert (Hbb : b = b').
  { destruct b, b'; try reflexivity.
    - destruct (proj1 Hiff eq_refl) as [Hg Hpw]. symmetry. apply Hiff'. split.
      + rewrite <- Hp2. exact Hg.
      + eapply pairwise_identical_Permutation; eassumption.
    - destruct (proj1 Hiff' eq_refl) as [Hg Hpw]. apply Hiff. split.
      + rewrite Hp2. exact Hg.
      + eapply pairwise_identical_Permutation; [symmetry|]; eassumption. }
  subst b'.
  pose proof (max_rank_Permutation _ _ Hp2) as Hmax.
  eexists _, _. split; [exact Ht|]. split; [exact Ht'|].
  split; [reflexivity|].
  split; [unfold node_rank, attribute, typed; cbn; rewrite Hrank, Hrank', Hmax;
          reflexivity|].
  split; [unfold node_order, attribute, typed; cbn; rewrite Horder, Horder', Hmax;
          reflexivity|].
  destruct b.
  - destruct Hb as (_ & _ & ->), Hb' as (_ & _ & ->). split; intros _; eauto.
  - destruct Hb as (_ & _ & ->), Hb' as (_ & _ & ->).
    split; intros (l & Hl); discriminate Hl.
Qed.

Lemma PythonTuple_init_first_dimension a r t :
  PythonTuple_init Semantic (a :: r) = Ok t ->
  exists b sg tail,
    t = PythonTuple (a :: r) (Some (b, sg))
    /\ shape sg = Some (Some (LiteralInteger (Z.of_nat (length (a :: r))) (-1)) :: tail).
Proof.
  unfold PythonTuple_init. simpl is_syntactic. cbv iota.
  destruct (homogeneity a r) as [[|]|e]; cbn [bind]; [| |discriminate].
  - unfold homogeneous_sig. destruct (typed a) as [s0|]; cbn [bind]; [|discriminate].
    destruct (if Nat.eqb (rank s0) 0 then Some [] else shape s0) as [tl|];
      cbn [bind prepend_count]; [|discriminate].
    intros [= <-]. eauto.
  - destruct (map_m typed (a :: r)) as [sigs|]; cbn [bind]; [|discriminate].
    destruct (Nat.eqb (S (max_rank sigs)) 1); cbn [bind prepend_count];
      [intros [= <-]; eauto|].
    destruct (existsb _ sigs); cbn [bind prepend_count]; [intros [= <-]; eauto|].
    destruct (typed a) as [s0|]; cbn [bind]; [|discriminate].
    destruct (shape s0) as [tl|]; cbn [bind prepend_count]; [|discriminate].
    intros [= <-]. eauto.
Qed.

(** X9. [len] of a tuple built outside the syntactic stage: of the
    empty tuple it raises a [TypeError] (the tuple has no shape); of an
    inhomogeneous tuple it is the integer literal counting the
    elements; of a homogeneous tuple it is a [PythonLen] node. *)
Theorem len_of_built_tuple (args : list node) (t : node) :
  PythonTuple_init Semantic args = Ok t ->
  (args = [] ->
     PythonLen_new t = Raise (TypeError "'NoneType' object is not subscriptable"))
  /\ (args <> [] -> is_homogeneous t = Ok false ->
      PythonLen_new t
      = Ok (ShapeComponent (Some (LiteralInteger (Z.of_nat (length args)) (-1)))))
  /\ (is_homogeneous t = Ok true -> PythonLen_new t = Ok (LenNode (PythonLen t))).
Proof.
  intros Ht. destruct args as [|a r].
  - injection Ht as <-. repeat split; [contradiction | discriminate].
  - apply PythonTuple_init_first_dimension in Ht as (b & sg & tail & -> & Hshape).
    split; [discriminate|]. split.
    + intros _ [= ->]. unfold PythonLen_new, first_dimension, node_shape, attribute, typed.
      cbn. rewrite Hshape. reflexivity.
    + intros [= ->]. reflexivity.
Qed.

(** X10. [max] and [min] of a list node built outside the syntactic
    stage never fail, not even for the empty list: they take the kind
    and the precision of the list. *)
Theorem extremum_of_a_list (args : list node) (l : node) (stage : PyccelStage) :
  PythonList_init Semantic args = Ok l ->
  exists d p,
    node_dtype l = Ok d /\ node_precision l = Ok p
    /\ PythonMax_init stage [Node l] = Ok (PythonMax l d p NativeHomogeneousList)
    /\ PythonMin_init stage [Node l] = Ok (PythonMin l d p NativeHomogeneousList).
Proof.
  intros Hl.
  assert (exists sg, l = PythonList args (Some sg)) as (sg & ->).
  { unfold PythonList_init in Hl. simpl is_syntactic in Hl. cbv iota in Hl.
    destruct args as [|a r]; [injection Hl as <-; eauto|].
    destruct (homogeneity a r) as [[|]|e]; cbn [bind] in Hl; try discriminate.
    destruct (homogeneous_sig a (a :: r) (Some NativeHomogeneousList)) as [sg|];
      cbn [bind] in Hl; [|discriminate].
    injection Hl as <-. eauto. }
  exists (dtype sg), (precision sg). repeat split.
Qed.

Lemma map_m_Node (args : list node) :
  map_m (fun a => match a with
                  | Node n => Ok n
                  | Sequence _ => Raise AttributeError
                  end) (map Node args) = Ok args.
Proof.
  induction args as [|a args IH]; [reflexivity|]. simpl. rewrite IH. reflexivity.
Qed.

(** X11. [max] and [min] of several nodes given one by one, of the
    same nodes given as one Python sequence, and of the tuple built
    from them are the same; this needs the number of nodes to differ
    from one: a single node that is no tuple or list is a [TypeError],
    while a one-element sequence is packed into a tuple. *)
Theorem extremum_packs_its_arguments (stage : PyccelStage) (args : list node) :
  (length args <> 1%nat ->
     PythonMax_init stage (map Node args) = PythonMax_init stage [Sequence args]
     /\ PythonMin_init stage (map Node args) = PythonMin_init stage [Sequence args])
  /\ (forall t, PythonTuple_init stage args = Ok t ->
        PythonMax_init stage [Sequence args] = PythonMax_init stage [Node t]
        /\ PythonMin_init stage [Sequence args] = PythonMin_init stage [Node t])
  /\ (forall a, args = [a] ->
        (forall xs attrs, a <> PythonTuple xs attrs) ->
        (forall xs attrs, a <> PythonList xs attrs) ->
        exists msg, PythonMax_init stage (map Node args) = Raise (TypeError msg)
                    /\ PythonMin_init stage (map Node args) = Raise (TypeError msg)).
Proof.
  split; [|split].
  - intros Hlen.
    assert (Hop : extremum_operand stage (map Node args)
                  = extremum_operand stage [Sequence args]).
    { destruct args as [|a [|b r]]; [reflexivity | contradiction Hlen; reflexivity |].
      change (extremum_operand stage (map Node (a :: b :: r)))
        with (let? l := map_m (fun a => match a with
                                        | Node n => Ok n
                                        | Sequence _ => Raise AttributeError
                                        end) (map Node (a :: b :: r)) in
              PythonTuple_init stage l).
      rewrite map_m_Node. reflexivity. }
    unfold PythonMax_init, PythonMin_init. rewrite Hop. split; reflexivity.
  - intros t Ht.
    assert (Hop : extremum_operand stage [Sequence args] = extremum_operand stage [Node t]).
    { cbn [extremum_operand]. rewrite Ht.
      unfold PythonTuple_init in Ht.
      destruct (is_syntactic stage); [injection Ht as <-; reflexivity|].
      destruct args as [|a r]; [injection Ht as <-; reflexivity|].
      destruct (homogeneity a r) as [[|]|]; cbn [bind] in Ht; try discriminate.
      + destruct (homogeneous_sig a (a :: r) (Some NativeHomogeneousTuple));
          cbn [bind] in Ht; [injection Ht as <-; reflexivity | discriminate].
      + destruct (map_m typed (a :: r)) as [sigs|]; cbn [bind] in Ht; [|discriminate].
        match type of Ht with
        | bind ?m _ = _ => destruct m; cbn [bind] in Ht; [|discriminate]
        end.
        injection Ht as <-. reflexivity. }
    unfold PythonMax_init, PythonMin_init. rewrite Hop. split; reflexivity.
  - intros a -> Ht Hl. exists "Unknown type of the argument's class.".
    unfold PythonMax_init, PythonMin_init. cbn [map extremum_operand].
    destruct a; try (split; reflexivity).
    + exfalso. eapply Ht. reflexivity.
    + exfalso. eapply Hl. reflexivity.
Qed.

(** X12. [max] and [min] accept the same arguments, and then build
    nodes over the same aggregate with the same kind, precision and
    class type. *)
Theorem max_and_min_agree (stage : PyccelStage) (x : list pyarg) :
  (forall n, PythonMax_init stage x = Ok n ->
     exists t d p ct, n = PythonMax t d p ct
       /\ PythonMin_init stage x = Ok (PythonMin t d p ct))
  /\ (forall n, PythonMin_init stage x = Ok n ->
      exists t d p ct, n = PythonMin t d p ct
        /\ PythonMax_init stage x = Ok (PythonMax t d p ct)).
Proof.
  unfold PythonMax_init, PythonMin_init.
  destruct (extremum_operand stage x) as [t|e]; cbn [bind]; [|split; discriminate].
  destruct (is_homogeneous t) as [[|]|e]; cbn [bind negb].
  - destruct (node_dtype t) as [d|]; cbn [bind]; [|split; discriminate].
    destruct (node_precision t) as [p|]; cbn [bind]; [|split; discriminate].
    destruct (node_class_type t) as [ct|]; cbn [bind]; [|split; discriminate].
    split; intros n [= <-]; eauto 10.
  - split; intros n H.
    + destruct (max_types t); discriminate H.
    + destruct (min_types t); discriminate H.
  - split; discriminate.
Qed.

Lemma known_lengths_inv args ns :
  known_lengths args = Ok ns ->
  exists dims, map_m first_dimension args = Ok dims /\ ns = static_lengths dims.
Proof.
  revert ns. induction args as [|a args IH]; intros ns H.
  - injection H as <-. exists []. split; reflexivity.
  - simpl in H. destruct (first_dimension a) as [d|] eqn:Hd; [|discriminate].
    cbn [bind] in H. destruct (known_lengths args) as [ns'|]; [|discriminate].
    destruct (IH ns' eq_refl) as (dims & Hdims & ->).
    exists (d :: dims). simpl. rewrite Hd, Hdims. split; [reflexivity|].
    cbn [bind] in H. destruct d as [[]|]; injection H as <-; reflexivity.
Qed.

Lemma min_of_Permutation n ns n' ns' :
  Permutation (n :: ns) (n' :: ns') -> min_of n ns = min_of n' ns'.
Proof.
  intros Hp.
  destruct (min_of_least n ns) as [Hin Hle], (min_of_least n' ns') as [Hin' Hle'].
  rewrite Forall_forall in Hle, Hle'.
  apply list_elem_of_In in Hin, Hin'.
  assert (min_of n ns <= min_of n' ns') by (apply Hle; rewrite Hp; exact Hin').
  assert (min_of n' ns' <= min_of n ns) by (apply Hle'; rewrite <- Hp; exact Hin).
  lia.
Qed.

(** X13. When a zip has a statically known length, that length does
    not depend on the order of the sources: a zip over the same
    sources in another order is built with the same length. *)
Theorem zip_length_order_independent (args args' : list node) (z : node) (m : Z) :
  Permutation args args' ->
  PythonZip_init Semantic args = Ok z ->
  zip_length z = Ok (IntLength m) ->
  exists z', PythonZip_init Semantic args' = Ok z'
             /\ zip_length z' = Ok (IntLength m).
Proof.
  intros Hp Hz Hm. unfold PythonZip_init in *.
  rewrite <- (Permutation_length Hp).
  destruct (length args <? 2)%nat; [discriminate|].
  simpl is_syntactic in *. cbv iota in *.
  destruct (known_lengths args) as [ns|] eqn:Hk; cbn [bind] in Hz; [|discriminate].
  apply known_lengths_inv in Hk as (dims & Hdims & ->).
  destruct (map_m_Permutation first_dimension _ _ _ Hp Hdims) as (dims' & Hdims' & Hpd).
  rewrite (known_lengths_static _ _ Hdims'). cbn [bind].
  assert (Hps : Permutation (static_lengths dims) (static_lengths dims'))
    by (unfold static_lengths; rewrite Hpd; reflexivity).
  destruct (static_lengths dims) as [|n ns] eqn:E.
  - destruct args as [|a0 r]; [discriminate|].
    destruct (first_dimension a0) as [[e|]|]; cbn [bind] in Hz; try discriminate;
      injection Hz as <-; discriminate Hm.
  - injection Hz as <-. injection Hm as <-.
    destruct (static_lengths dims') as [|n' ns'];
      [apply Permutation_nil_r in Hps; discriminate|].
    eexists. split; [reflexivity|]. cbn. rewrite (min_of_Permutation _ _ _ _ Hps).
    reflexivity.
Qed.

(** ** Further properties of the binding layer *)

(** X14. The wrapper a constructor call returns holds exactly one
    shape and one stride variable per dimension of the original
    variable, and its [inout] has one entry per descriptor of
    [get_all_function_def_arguments]: a single flag for the single
    descriptor of a scalar, a list as long as the descriptor list for
    an array. *)
Theorem inout_matches_descriptors (var original_arg_var : variable node)
    (scope : Scope) (flag : bool) :
  let w := fst (BindCFunctionDefArgument_init var scope original_arg_var flag) in
  one_per_dimension (ArgSelf w)
  /\ arg_rank w = rank (ty original_arg_var)
  /\ match inout w with
     | InoutFlag _ => get_all_function_def_arguments w = [ArgSelf w]
     | InoutList flags =>
         length flags = length (get_all_function_def_arguments w)
     end.
Proof.
  intros w. subst w. unfold BindCFunctionDefArgument_init.
  pose proof (temporaries_length (shape_name (name var))
                (range (rank (ty original_arg_var))) scope) as Lsh.
  destruct (temporaries (shape_name (name var)) (range (rank (ty original_arg_var))) scope)
    as [shape scope1].
  pose proof (temporaries_length (stride_name (name var))
                (range (rank (ty original_arg_var))) scope1) as Lst.
  destruct (temporaries (stride_name (name var)) (range (rank (ty original_arg_var))) scope1)
    as [strides scope2].
  unfold range in Lsh, Lst. rewrite length_seq in Lsh, Lst. cbn [fst snd] in *.
  unfold one_per_dimension, inout, get_all_function_def_arguments.
  cbn [arg_shape arg_strides arg_rank arg_base_inout].
  split; [split; assumption|]. split; [reflexivity|].
  destruct (rank (ty original_arg_var)) as [|r] eqn:Hr; cbn [Nat.eqb negb].
  - apply length_zero_iff_nil in Lsh, Lst. subst. reflexivity.
  - rewrite list_times_false, !length_app, !length_map, repeat_length, Lsh, Lst.
    simpl. lia.
Qed.

Lemma flat_map_m_arguments (l : list argument_descriptor) :
  forallb is_BindCFunctionDefArgument l = true ->
  exists flat,
    flat_map_m (fun a => match a with
                         | ArgSelf w => Ok (get_all_function_def_arguments w)
                         | FunctionDefArgument _ => Raise AttributeError
                         end) l = Ok flat
    /\ filter (fun a => is_BindCFunctionDefArgument a = true) flat = l
    /\ (Forall one_per_dimension l ->
        length flat = (length l + 2 * foldr Nat.add 0 (argument_ranks l))%nat).
Proof.
  induction l as [|a l IH]; intros Hall.
  - exists []. repeat split.
  - simpl in Hall. apply andb_prop in Hall as [Ha Hl].
    destruct (IH Hl) as (flat & Hflat & Hfilter & Hlen).
    destruct a as [w|v]; [|discriminate Ha].
    exists (get_all_function_def_arguments w ++ flat).
    cbn [flat_map_m bind]. rewrite Hflat. cbn [bind].
    split; [reflexivity|]. split.
    + rewrite filter_app, Hfilter. unfold get_all_function_def_arguments.
      rewrite !filter_app.
      assert (Hnone : forall vs, filter (fun a => is_BindCFunctionDefArgument a = true)
                                   (map FunctionDefArgument vs) = []).
      { induction vs as [|x vs IHv]; [reflexivity|]. simpl.
        rewrite filter_cons_False by discriminate. exact IHv. }
      rewrite !Hnone. reflexivity.
    + intros Hone. inversion Hone as [|? ? Hw Hrest]; subst.
      simpl in Hw. destruct Hw as [Hs Hst].
      rewrite length_app, (Hlen Hrest). unfold get_all_function_def_arguments.
      rewrite !length_app, !length_map, Hs, Hst. simpl. lia.
Qed.

Lemma flat_map_m_results (l : list result_descriptor) :
  forallb is_BindCFunctionDefResult l = true ->
  exists flat,
    flat_map_m (fun a => match a with
                         | ResSelf w => Ok (get_all_function_def_results w)
                         | FunctionDefResult _ => Raise AttributeError
                         end) l = Ok flat
    /\ filter (fun a => is_BindCFunctionDefResult a = true) flat = l
    /\ length flat = (length l + foldr Nat.add 0 (result_ranks l))%nat.
Proof.
  induction l as [|a l IH]; intros Hall.
  - exists []. repeat split.
  - simpl in Hall. apply andb_prop in Hall as [Ha Hl].
    destruct (IH Hl) as (flat & Hflat & Hfilter & Hlen).
    destruct a as [w|v]; [|discriminate Ha].
    exists (get_all_function_def_results w ++ flat).
    cbn [flat_map_m bind]. rewrite Hflat. cbn [bind].
    split; [reflexivity|]. split.
    + rewrite filter_app, Hfilter. unfold get_all_function_def_results.
      rewrite !filter_app.
      assert (Hnone : forall vs, filter (fun a => is_BindCFunctionDefResult a = true)
                                   (map FunctionDefResult vs) = []).
      { induction vs as [|x vs IHv]; [reflexivity|]. simpl.
        rewrite filter_cons_False by discriminate. exact IHv. }
      rewrite !Hnone. reflexivity.
    + rewrite length_app, Hlen. unfold get_all_function_def_results.
      rewrite !length_app, !length_map. simpl. lia.
Qed.

(** X15. The construction of a [BindCFunctionDef] passes its
    assertions exactly when the name is in lower case and every
    argument and every result is a wrapper; on the function it builds,
    [arguments] and [results] do not raise, and keeping the wrappers of
    these flattened lists gives back [bind_c_arguments] and
    [bind_c_results], in order. *)
Theorem BindCFunctionDef_flattening_round_trip (name : string)
    (args : list argument_descriptor) (res : list result_descriptor)
    (original_function : FunctionDef) :
  ((exists f, BindCFunctionDef_init name args res original_function = Passed f)
   <-> name = lower name
       /\ forallb is_BindCFunctionDefArgument args = true
       /\ forallb is_BindCFunctionDefResult res = true)
  /\ forall f, BindCFunctionDef_init name args res original_function = Passed f ->
       exists flat_args flat_res,
         arguments f = Ok flat_args
         /\ results f = Ok flat_res
         /\ filter (fun a => is_BindCFunctionDefArgument a = true) flat_args
            = bind_c_arguments f
         /\ filter (fun a => is_BindCFunctionDefResult a = true) flat_res
            = bind_c_results f.
Proof.
  unfold BindCFunctionDef_init.
  destruct (String.eqb name (lower name)) eqn:En; cbn [negb].
  2:{ apply String.eqb_neq in En. split; [|discriminate].
      split; [intros (f & Hf); discriminate Hf | intros (Hn & _); contradiction]. }
  apply String.eqb_eq in En.
  destruct (forallb is_BindCFunctionDefArgument args) eqn:Ea; cbn [negb].
  2:{ split; [|discriminate].
      split; [intros (f & Hf); discriminate Hf | intros (_ & Hc & _); discriminate Hc]. }
  destruct (forallb is_BindCFunctionDefResult res) eqn:Er; cbn [negb].
  2:{ split; [|discriminate].
      split; [intros (f & Hf); discriminate Hf | intros (_ & _ & Hc); discriminate Hc]. }
  split; [split; [intros _; auto | intros _; eauto]|].
  intros f [= <-]. unfold arguments, results, bind_c_arguments, bind_c_results.
  cbn [fun_arguments fun_results].
  destruct (flat_map_m_arguments args Ea) as (fa & Hfa & Hra & _).
  destruct (flat_map_m_results res Er) as (fr & Hfr & Hrr & _).
  exists fa, fr. repeat split; assumption.
Qed.

(** X16. For a [BindCFunctionDef] whose wrappers hold one shape and
    one stride variable per dimension, the flattened argument list has
    one entry per argument plus two per array dimension, and the
    flattened result list one entry per result plus one per shape
    variable. *)
Theorem BindCFunctionDef_flattened_lengths (name : string)
    (args : list argument_descriptor) (res : list result_descriptor)
    (original_function : FunctionDef) (f : BindCFunctionDef) :
  BindCFunctionDef_init name args res original_function = Passed f ->
  Forall one_per_dimension args ->
  exists flat_args flat_res,
    arguments f = Ok flat_args
    /\ results f = Ok flat_res
    /\ length flat_args
       = (length args + 2 * foldr Nat.add 0 (argument_ranks args))%nat
    /\ length flat_res
       = (length res + foldr Nat.add 0 (result_ranks res))%nat.
Proof.
  unfold BindCFunctionDef_init.
  destruct (String.eqb name (lower name)); cbn [negb]; [|discriminate].
  destruct (forallb is_BindCFunctionDefArgument args) eqn:Ea; cbn [negb]; [|discriminate].
  destruct (forallb is_BindCFunctionDefResult res) eqn:Er; cbn [negb]; [|discriminate].
  intros [= <-] Hone. unfold arguments, results. cbn [fun_arguments fun_results].
  destruct (flat_map_m_arguments args Ea) as (fa & Hfa & _ & Hla).
  destruct (flat_map_m_results res Er) as (fr & Hfr & _ & Hlr).
  exists fa, fr. repeat split; auto.
Qed.

(** X17. Building the wrapper of an argument whose shape and stride
    names are free only takes those names from the scope: every other
    name that was free is still free afterwards. *)
Theorem wrapper_leaves_other_names_free (var original_arg_var : variable node)
    (scope : Scope) (flag : bool) (m : string) :
  let r := rank (ty original_arg_var) in
  (forall i, (i < r)%nat ->
     free scope (shape_name (name var) i) /\ free scope (stride_name (name var) i)) ->
  free scope m ->
  (forall i, (i < r)%nat ->
     m <> shape_name (name var) i /\ m <> stride_name (name var) i) ->
  free (snd (BindCFunctionDefArgument_init var scope original_arg_var flag)) m.
Proof.
  intros r Hfree Hm Hother. unfold BindCFunctionDefArgument_init. fold r.
  assert (Hfree_of : forall (fmt : nat -> string) sc,
             (forall i, (i < r)%nat -> free sc (fmt i)) ->
             Forall (free sc) (map fmt (range r))).
  { intros fmt sc H. apply Forall_forall. intros x Hx.
    apply list_elem_of_In, in_map_iff in Hx as (i & <- & Hi).
    apply H. apply in_seq in Hi. lia. }
  assert (Hnot_in : forall (fmt : nat -> string),
             (forall i, (i < r)%nat -> m <> fmt i) -> ~ In m (map fmt (range r))).
  { intros fmt H Hin. apply in_map_iff in Hin as (i & Hi & Hr).
    apply in_seq in Hr. apply (H i); [lia | congruence]. }
  destruct (temporaries_granted (shape_name (name var)) (range r) scope) as [_ Ksh].
  { apply NoDup_names, shape_name_inj. }
  { apply Hfree_of. intros i Hi. apply Hfree, Hi. }
  destruct (temporaries (shape_name (name var)) (range r) scope) as [shape scope1].
  cbn [snd] in Ksh.
  destruct (temporaries_granted (stride_name (name var)) (range r) scope1) as [_ Kst].
  { apply NoDup_names, stride_name_inj. }
  { apply Hfree_of. intros i Hi. apply Ksh; [apply Hfree, Hi|].
    intros Hin. apply in_map_iff in Hin as (j & Hj & _).
    exact (shape_name_not_stride _ _ _ Hj). }
  destruct (temporaries (stride_name (name var)) (range r) scope1) as [strides scope2].
  cbn [snd] in *. apply Kst.
  - apply Ksh; [exact Hm|]. apply Hnot_in. intros i Hi. apply Hother, Hi.
  - apply Hnot_in. intros i Hi. apply Hother, Hi.
Qed.

(** A successful [PythonTuple(...)] is a tuple node of its arguments. *)
Lemma PythonTuple_init_node stage args t :
  PythonTuple_init stage args = Ok t -> exists attrs, t = PythonTuple args attrs.
Proof.
  unfold PythonTuple_init. destruct (is_syntactic stage).
  - intros [= <-]. eexists. reflexivity.
  - destruct args as [|arg0 rest].
    + intros [= <-]. eexists. reflexivity.
    + destruct (homogeneity arg0 rest) as [[|]|e]; cbn [bind]; [| |discriminate].
      * destruct (homogeneous_sig _ _ _); cbn [bind]; [|discriminate].
        intros [= <-]. eexists. reflexivity.
      * destruct (map_m typed _); cbn [bind]; [|discriminate].
        match goal with |- bind ?m _ = _ -> _ => destruct m end;
          cbn [bind]; [|discriminate].
        intros [= <-]. eexists. reflexivity.
Qed.

(** X18. Whatever [tuple(arg)] returns is a tuple node, and calling
    [tuple] on it again, at any stage, hands back that very object. *)
Theorem PythonTupleFunction_new_idempotent (stage stage' : PyccelStage) (arg : node)
    (b : built) :
  PythonTupleFunction_new stage arg = Ok b ->
  (exists args attrs, node_of b = PythonTuple args attrs)
  /\ PythonTupleFunction_new stage' (node_of b) = Ok (Existing (node_of b)).
Proof.
  intros H.
  assert (Ht : exists args attrs, node_of b = PythonTuple args attrs).
  { unfold PythonTupleFunction_new in H.
    assert (Hfresh : forall l, (let? t := PythonTuple_init stage l in Ok (Fresh t)) = Ok b ->
                               exists args attrs, node_of b = PythonTuple args attrs).
    { intros l Hl. destruct (PythonTuple_init stage l) as [t|] eqn:E; [|discriminate].
      cbn [bind] in Hl. injection Hl as <-.
      destruct (PythonTuple_init_node _ _ _ E) as [attrs ->].
      exists l, attrs. reflexivity. }
    assert (Hrest : (let? d := first_dimension arg in
                     match d with
                     | Some (LiteralInteger n _) =>
                         let? items := map_m (getitem arg) (seq 0 (Z.to_nat n)) in
                         let? t := PythonTuple_init stage items in Ok (Fresh t)
                     | _ => Raise (TypeError ("Can't unpack " +:+ node_str arg
                                              +:+ " into a tuple"))
                     end) = Ok b ->
                    exists args attrs, node_of b = PythonTuple args attrs).
    { destruct (first_dimension arg) as [[[]|]|]; cbn [bind]; try discriminate.
      destruct (map_m _ _) as [items|]; cbn [bind]; [|discriminate].
      apply Hfresh. }
    destruct arg; try (apply Hrest; exact H).
    - destruct v as [? ? ? [[|]|]]; try (apply Hrest; exact H).
      apply (Hfresh _ H).
    - injection H as <-. eexists _, _. reflexivity.
    - apply (Hfresh _ H). }
  split; [exact Ht|]. destruct Ht as (args & attrs & ->). reflexivity.
Qed.

(** X19. [tuple(l)] of a list built at the semantic stage is a new
    tuple of the same elements with the list's datatype, precision,
    rank, shape and order; it is homogeneous unless it is empty. *)
Theorem tuple_of_a_list (args : list node) (l : node) :
  PythonList_init Semantic args = Ok l ->
  exists t sl st,
    PythonTupleFunction_new Semantic l = Ok (Fresh t)
    /\ elements t = args
    /\ sig_of l = Some sl /\ sig_of t = Some st
    /\ dtype st = dtype sl /\ precision st = precision sl /\ rank st = rank sl
    /\ shape st = shape sl /\ order st = order sl
    /\ is_homogeneous t = Ok (match args with [] => false | _ => true end).
Proof.
  unfold PythonList_init. cbn [is_syntactic].
  destruct args as [|arg0 rest].
  - intros [= <-]. eexists _, _, _. cbn. repeat split.
  - destruct (homogeneity arg0 rest) as [[|]|e] eqn:Eh; cbn [bind]; try discriminate.
    destruct (homogeneous_sig arg0 (arg0 :: rest) (Some NativeHomogeneousList))
      as [sg|] eqn:Es; cbn [bind]; [|discriminate].
    intros [= <-].
    unfold homogeneous_sig in Es.
    destruct (typed arg0) as [s0|] eqn:E0; cbn [bind] in Es; [|discriminate].
    destruct (prepend_count _ _) as [shp|] eqn:Ep; cbn [bind] in Es; [|discriminate].
    injection Es as <-.
    eexists _, _, _.
    cbn [PythonTupleFunction_new PythonTuple_init is_syntactic].
    rewrite Eh. cbn [bind]. unfold homogeneous_sig. rewrite E0. cbn [bind].
    rewrite Ep. cbn [bind].
    split; [reflexivity|]. cbn. repeat split.
Qed.

End Pyccel.

(** ** Properties of the library flags *)

Lemma startswith_app p s : startswith (p ++ s) p = true.
Proof. apply bool_decide_eq_true. apply prefix_app_r. reflexivity. Qed.

Lemma startswith_inv s p : startswith s p = true -> s = p ++ drop (length p) s.
Proof.
  intros H. apply bool_decide_eq_true in H as [k ->].
  rewrite drop_app_length. reflexivity.
Qed.

Lemma startswith_cons_ne a b s p : a <> b -> startswith (a :: s) (b :: p) = false.
Proof.
  intros Hab. apply bool_decide_eq_false. intros [k Hk]. simpl in Hk. congruence.
Qed.

Lemma endswith_app p s : endswith (s ++ p) p = true.
Proof. apply bool_decide_eq_true. apply suffix_app_r. reflexivity. Qed.

(** A string does not end with a suffix whose last character is not
    its own last character. *)
Lemma endswith_last s p q a b :
  a <> b -> endswith (s ++ p ++ [a]) (q ++ [b]) = false.
Proof.
  intros Hab. apply bool_decide_eq_false. intros [k Hk].
  rewrite !app_assoc in Hk. apply app_inj_2 in Hk as [_ Hk]; [|reflexivity].
  congruence.
Qed.

Lemma slice_middle (p n q : list ascii) :
  slice (p ++ n ++ q) (length p) (length p + length n) = n.
Proof.
  unfold slice. rewrite drop_app_length.
  replace (length p + length n - length p)%nat with (length n) by lia.
  apply take_app_length.
Qed.

(** The three suffixes, one by one. *)
Lemma change_to_lib_flag_a (n : list ascii) :
  change_to_lib_flag (lit "lib" ++ n ++ lit ".a") = lit "-l" ++ n.
Proof.
  unfold change_to_lib_flag. rewrite !startswith_app.
  replace (endswith (lit "lib" ++ n ++ lit ".a") (lit ".a")) with true
    by (symmetry; rewrite app_assoc; apply endswith_app).
  replace (endswith (lit "lib" ++ n ++ lit ".a") (lit ".so")) with false
    by (symmetry; rewrite app_assoc;
        apply (endswith_last _ (lit ".") (lit ".s") "a" "o"); discriminate).
  replace (endswith (lit "lib" ++ n ++ lit ".a") (lit ".dylib")) with false
    by (symmetry; rewrite app_assoc;
        apply (endswith_last _ (lit ".") (lit ".dyli") "a" "b"); discriminate).
  f_equal.
  replace (length (lit "lib" ++ n ++ lit ".a") - 2)%nat
    with (length (lit "lib") + length n)%nat by (rewrite !length_app; simpl; lia).
  apply (slice_middle (lit "lib") n (lit ".a")).
Qed.

Lemma change_to_lib_flag_so (n : list ascii) :
  change_to_lib_flag (lit "lib" ++ n ++ lit ".so") = lit "-l" ++ n.
Proof.
  unfold change_to_lib_flag. rewrite !startswith_app.
  replace (endswith (lit "lib" ++ n ++ lit ".so") (lit ".a")) with false
    by (symmetry; rewrite app_assoc;
        apply (endswith_last _ (lit ".s") (lit ".") "o" "a"); discriminate).
  replace (endswith (lit "lib" ++ n ++ lit ".so") (lit ".so")) with true
    by (symmetry; rewrite app_assoc; apply endswith_app).
  replace (endswith (lit "lib" ++ n ++ lit ".so") (lit ".dylib")) with false
    by (symmetry; rewrite app_assoc;
        apply (endswith_last _ (lit ".s") (lit ".dyli") "o" "b"); discriminate).
  f_equal.
  replace (length (lit "lib" ++ n ++ lit ".so") - 3)%nat
    with (length (lit "lib") + length n)%nat by (rewrite !length_app; simpl; lia).
  apply (slice_middle (lit "lib") n (lit ".so")).
Qed.

Lemma change_to_lib_flag_dylib (n : list ascii) :
  change_to_lib_flag (lit "lib" ++ n ++ lit ".dylib") = lit "-l" ++ n ++ lit ".".
Proof.
  unfold change_to_lib_flag. rewrite !startswith_app.
  replace (endswith (lit "lib" ++ n ++ lit ".dylib") (lit ".a")) with false
    by (symmetry; rewrite app_assoc;
        apply (endswith_last _ (lit ".dyli") (lit ".") "b" "a"); discriminate).
  replace (endswith (lit "lib" ++ n ++ lit ".dylib") (lit ".so")) with false
    by (symmetry; rewrite app_assoc;
        apply (endswith_last _ (lit ".dyli") (lit ".s") "b" "o"); discriminate).
  replace (endswith (lit "lib" ++ n ++ lit ".dylib") (lit ".dylib")) with true
    by (symmetry; rewrite app_assoc; apply endswith_app).
  f_equal.
  replace (length (lit "lib" ++ n ++ lit ".dylib") - 5)%nat
    with (length (lit "lib") + length (n ++ lit "."))%nat
    by (rewrite !length_app; simpl; lia).
  change (lit ".dylib") with (lit "." ++ lit "dylib").
  rewrite (app_assoc n).
  apply (slice_middle (lit "lib") (n ++ lit ".") (lit "dylib")).
Qed.

Lemma change_to_lib_flag_other (lib : list ascii) :
  startswith lib (lit "lib") = false -> change_to_lib_flag lib = lib.
Proof. intros E. unfold change_to_lib_flag. rewrite E. reflexivity. Qed.

Lemma change_to_lib_flag_lib (lib : list ascii) :
  startswith lib (lit "lib") = true ->
  exists x, change_to_lib_flag lib = lit "-l" ++ x.
Proof. intros E. unfold change_to_lib_flag. rewrite E. eexists. reflexivity. Qed.

Lemma flag_is_no_lib (x : list ascii) (c : ascii) :
  startswith ("-"%char :: c :: x) (lit "lib") = false.
Proof.
  change (lit "lib") with ("l"%char :: lit "ib").
  apply startswith_cons_ne. discriminate.
Qed.

(** X20. [change_to_lib_flag] turns the library file [lib{n}.a] or
    [lib{n}.so] into the flag [-l{n}]; of the suffix [.dylib] it
    removes five characters, so [lib{n}.dylib] becomes [-l{n}.] with
    the dot kept. *)
Theorem change_to_lib_flag_suffix (n : list ascii) :
  change_to_lib_flag (lit "lib" ++ n ++ lit ".a") = lit "-l" ++ n
  /\ change_to_lib_flag (lit "lib" ++ n ++ lit ".so") = lit "-l" ++ n
  /\ change_to_lib_flag (lit "lib" ++ n ++ lit ".dylib") = lit "-l" ++ n ++ lit ".".
Proof.
  split; [apply change_to_lib_flag_a|].
  split; [apply change_to_lib_flag_so|apply change_to_lib_flag_dylib].
Qed.

(** X21. [change_to_lib_flag] leaves a string that does not begin
    with [lib] unchanged, makes a flag beginning with [-l] of one that
    does, and applying it to its own result changes nothing. *)
Theorem change_to_lib_flag_idempotent (lib : list ascii) :
  (startswith lib (lit "lib") = false -> change_to_lib_flag lib = lib)
  /\ (startswith lib (lit "lib") = true ->
      startswith (change_to_lib_flag lib) (lit "-l") = true)
  /\ change_to_lib_flag (change_to_lib_flag lib) = change_to_lib_flag lib.
Proof.
  destruct (startswith lib (lit "lib")) eqn:E.
  - destruct (change_to_lib_flag_lib lib E) as [x Hx].
    split; [discriminate|]. split; [intros _; rewrite Hx; apply startswith_app|].
    rewrite Hx. apply change_to_lib_flag_other.
    apply (flag_is_no_lib x "l").
  - pose proof (change_to_lib_flag_other lib E) as Hx.
    split; [intros _; exact Hx|]. split; [discriminate|].
    rewrite !Hx. reflexivity.
Qed.

(** X22. In the configuration read from the linker words, the
    libraries are exactly the names [n] for which some word (the first
    word of [LIBRARY] apart) is turned into [-l{n}], and the library
    directories the [d] of the words [-L{d}] followed by the words of
    [LIBPL] and [LIBDIR]; so a word [lib{n}.so] or [lib{n}.a] gives
    the library [n]. *)
Theorem python_libs_of_linker_words
    (ldshared library libpl libdir : list (list ascii)) (n : list ascii) :
  let words := ldshared ++ tail library in
  let flags := linker_flags ldshared library in
  (In n (python_libs flags)
   <-> exists w, In w words /\ change_to_lib_flag w = lit "-l" ++ n)
  /\ (In n (python_libdirs flags libpl libdir)
      <-> In (lit "-L" ++ n) words \/ In n libpl \/ In n libdir)
  /\ (In (lit "lib" ++ n ++ lit ".so") words \/ In (lit "lib" ++ n ++ lit ".a") words ->
      In n (python_libs flags)).
Proof.
  intros words flags. subst words flags. unfold linker_flags, python_libs, python_libdirs.
  set (words := ldshared ++ tail library).
  assert (Hlibs : In n (map (drop 2)
                     (filter (fun l => startswith l (lit "-l") = true)
                        (map change_to_lib_flag words)))
                  <-> exists w, In w words /\ change_to_lib_flag w = lit "-l" ++ n).
  { rewrite in_map_iff. split.
    - intros (f & <- & Hf). apply list_elem_of_In, list_elem_of_filter in Hf as [Hs Hf].
      apply list_elem_of_In, in_map_iff in Hf as (w & <- & Hw).
      exists w. split; [exact Hw|]. apply (startswith_inv _ _ Hs).
    - intros (w & Hw & Hcw). exists (lit "-l" ++ n). split; [reflexivity|].
      apply list_elem_of_In, list_elem_of_filter. split; [apply startswith_app|].
      apply list_elem_of_In, in_map_iff. exists w. split; assumption. }
  split; [exact Hlibs|]. split.
  - rewrite !in_app_iff, in_map_iff.
    assert (Hd : (exists f, drop 2 f = n
                    /\ In f (filter (fun l => startswith l (lit "-L") = true)
                               (map change_to_lib_flag words)))
                 <-> In (lit "-L" ++ n) words).
    { split.
      - intros (f & <- & Hf). apply list_elem_of_In, list_elem_of_filter in Hf as [Hs Hf].
        apply list_elem_of_In, in_map_iff in Hf as (w & <- & Hw).
        destruct (startswith w (lit "lib")) eqn:E.
        + exfalso. destruct (change_to_lib_flag_lib w E) as [x Hx].
          rewrite Hx in Hs.
          change (lit "-l" ++ x) with ("-"%char :: "l"%char :: x) in Hs.
          change (lit "-L") with ("-"%char :: lit "L") in Hs.
          apply bool_decide_eq_true in Hs as [k Hk]. simpl in Hk. discriminate Hk.
        + rewrite (change_to_lib_flag_other w E) in *.
          rewrite (startswith_inv _ _ Hs) in Hw at 1. exact Hw.
      - intros Hw. exists (lit "-L" ++ n). split; [reflexivity|].
        apply list_elem_of_In, list_elem_of_filter. split; [apply startswith_app|].
        apply list_elem_of_In, in_map_iff. exists (lit "-L" ++ n). split; [|exact Hw].
        apply change_to_lib_flag_other. apply (flag_is_no_lib n "L"). }
    rewrite Hd. reflexivity.
  - intros [Hw|Hw]; apply Hlibs; eexists; (split; [exact Hw|]).
    + apply change_to_lib_flag_so.
    + apply change_to_lib_flag_a.
Qed.

Lemma contains_unfold s p :
  contains s p
  = startswith s p || match s with [] => false | _ :: s' => contains s' p end.
Proof. destruct s; reflexivity. Qed.

Lemma contains_app a p b : contains (a ++ p ++ b) p = true.
Proof.
  induction a as [|c a IH].
  - rewrite contains_unfold. simpl app. rewrite startswith_app. reflexivity.
  - simpl. rewrite IH. apply orb_true_r.
Qed.

Lemma endswith_contains s p : endswith s p = true -> contains s p = true.
Proof.
  intros H. apply bool_decide_eq_true in H as [k ->].
  rewrite <- (app_nil_r p) at 1. apply contains_app.
Qed.

(** The choice among the candidates of one kind: the first that ends
    with [ending] when there is one, the first candidate otherwise. *)
Lemma preferred_candidate (ending : list ascii) (possible : list (list ascii)) :
  possible <> [] ->
  exists l,
    take 1 (if (1 <? length possible)%nat then
              match filter (fun l => endswith l ending = true) possible with
              | _ :: _ => filter (fun l => endswith l ending = true) possible
              | [] => possible
              end
            else possible) = [l]
    /\ In l possible
    /\ ((exists l', In l' possible /\ endswith l' ending = true) -> endswith l ending = true).
Proof.
  intros Hne.
  destruct possible as [|l0 rest]; [congruence|].
  assert (Hpref : forall l, In l (filter (fun l => endswith l ending = true) (l0 :: rest))
                            <-> endswith l ending = true /\ In l (l0 :: rest)).
  { intros l. rewrite <- !list_elem_of_In. rewrite list_elem_of_filter. tauto. }
  remember (filter (fun l => endswith l ending = true) (l0 :: rest)) as pref eqn:Epref.
  clear Epref.
  destruct (1 <? length (l0 :: rest))%nat eqn:El.
  - destruct pref as [|p0 prest] eqn:Ep.
    + exists l0. split; [reflexivity|]. split; [left; reflexivity|].
      intros (l' & Hin & He). destruct (proj2 (Hpref l') (conj He Hin)).
    + destruct (proj1 (Hpref p0) (or_introl eq_refl)) as [Hpe Hpin].
      exists p0. split; [reflexivity|]. split; [exact Hpin|]. intros _. exact Hpe.
  - exists l0. split; [reflexivity|]. split; [left; reflexivity|].
    intros (l' & Hin & He). apply Nat.ltb_ge in El.
    destruct rest; [|simpl in El; lia].
    destruct Hin as [->|[]]. exact He.
Qed.

Lemma no_candidate (f : list ascii -> bool) (l : list (list ascii)) :
  (forall x, In x l -> f x = false) -> filter (fun x => f x = true) l = [].
Proof.
  induction l as [|a l IH]; intros H; [reflexivity|].
  rewrite filter_cons. rewrite decide_False.
  - apply IH. intros x Hx. apply H. right. exact Hx.
  - rewrite (H a (or_introl eq_refl)). discriminate.
Qed.

(** X23. Away from Windows the Python library is one file found on
    disk whenever a found file contains the shared ending or [.a]: a
    file containing the shared ending is preferred to a static one,
    and a file that ends with the ending to one that only contains
    it.  With no such file the library is named by the linker words. *)
Theorem python_library_preference (platform : string) (globbed : list (list ascii))
    (version : list ascii) (installed_base ldshared library libpl libdir : list (list ascii)) :
  platform <> "win32" ->
  let found := find_python_library platform globbed version installed_base
                 ldshared library libpl libdir in
  let ending := shared_ending platform in
  ((exists l, In l globbed /\ contains l ending = true) ->
   exists l, found = Dependencies [l] /\ In l globbed /\ contains l ending = true
             /\ ((exists l', In l' globbed /\ endswith l' ending = true) ->
                 endswith l ending = true))
  /\ ((forall l, In l globbed -> contains l ending = false) ->
      (exists l, In l globbed /\ contains l (lit ".a") = true) ->
      exists l, found = Dependencies [l] /\ In l globbed /\ contains l (lit ".a") = true
                /\ ((exists l', In l' globbed /\ endswith l' (lit ".a") = true) ->
                    endswith l (lit ".a") = true))
  /\ ((forall l, In l globbed ->
         contains l ending = false /\ contains l (lit ".a") = false) ->
      let flags := linker_flags ldshared library in
      found = LibsAndDirs (python_libs flags) (python_libdirs flags libpl libdir)).
Proof.
  intros Hw found ending. subst found. unfold find_python_library.
  apply String.eqb_neq in Hw. rewrite Hw.
  fold (shared_ending platform). fold ending.
  set (shared := filter (fun l => contains l ending = true) globbed).
  set (static := filter (fun l => contains l (lit ".a") = true) globbed).
  assert (Hsh : forall l, In l shared <-> In l globbed /\ contains l ending = true).
  { intros l. rewrite <- !list_elem_of_In. unfold shared. rewrite list_elem_of_filter. tauto. }
  assert (Hst : forall l, In l static <-> In l globbed /\ contains l (lit ".a") = true).
  { intros l. rewrite <- !list_elem_of_In. unfold static. rewrite list_elem_of_filter. tauto. }
  split; [|split].
  - intros (l & Hl). apply Hsh in Hl.
    destruct shared as [|s0 srest] eqn:Es; [destruct Hl|]. rewrite <- Es in *.
    destruct (preferred_candidate ending shared) as (c & Hc & Hin & Hend).
    { rewrite Es. discriminate. }
    exists c. rewrite Es at 1. rewrite <- Es. cbn zeta. rewrite Hc.
    apply Hsh in Hin as [Hin Hcont].
    repeat split; try assumption.
    intros (l' & Hl' & He). apply Hend. exists l'. split; [|exact He].
    apply Hsh. split; [exact Hl'|]. apply endswith_contains. exact He.
  - intros Hnone (l & Hl). apply Hst in Hl.
    assert (shared = []) as Es by (apply no_candidate; exact Hnone).
    clear Hsh. rewrite Es.
    destruct static as [|s0 srest] eqn:Et; [destruct Hl|]. rewrite <- Et in *.
    destruct (preferred_candidate (lit ".a") static) as (c & Hc & Hin & Hend).
    { rewrite Et. discriminate. }
    exists c. rewrite Et at 1. rewrite <- Et. cbn zeta. rewrite Hc.
    apply Hst in Hin as [Hin Hcont].
    repeat split; try assumption.
    intros (l' & Hl' & He). apply Hend. exists l'. split; [|exact He].
    apply Hst. split; [exact Hl'|]. apply endswith_contains. exact He.
  - intros Hnone.
    assert (shared = []) as -> by (apply no_candidate; intros l Hl; apply (Hnone l Hl)).
    assert (static = []) as -> by (apply no_candidate; intros l Hl; apply (Hnone l Hl)).
    reflexivity.
Qed.

(** X24. On every platform the dependencies stored for the Python
    library are found files and never an empty list; away from
    Windows there is exactly one. *)
Theorem python_dependencies_are_found_files (platform : string)
    (globbed : list (list ascii)) (version : list ascii)
    (installed_base ldshared library libpl libdir files : list (list ascii)) :
  find_python_library platform globbed version installed_base ldshared library libpl libdir
  = Dependencies files ->
  files <> [] /\ (forall f, In f files -> In f globbed)
  /\ (platform <> "win32" -> length files = 1%nat).
Proof.
  unfold find_python_library.
  destruct (String.eqb platform "win32") eqn:Ew.
  - destruct globbed as [|g0 grest]; [discriminate|]. intros [= <-].
    split; [discriminate|]. split; [tauto|].
    apply String.eqb_eq in Ew. congruence.
  - set (ending := if String.eqb platform "darwin" then lit ".dylib" else lit ".so").
    assert (Hin : forall (f : list ascii -> bool) c,
               In c (filter (fun l => f l = true) globbed) -> In c globbed).
    { intros f c. rewrite <- !list_elem_of_In, list_elem_of_filter. tauto. }
    destruct (filter (fun l => contains l ending = true) globbed) as [|s0 srest] eqn:Es.
    + destruct (filter (fun l => contains l (lit ".a") = true) globbed)
        as [|t0 trest] eqn:Et; [discriminate|].
      rewrite <- Et.
      destruct (preferred_candidate (lit ".a")
                  (filter (fun l => contains l (lit ".a") = true) globbed))
        as (c & Hc & Hcin & _); [rewrite Et; discriminate|].
      rewrite Hc. intros [= <-]. split; [discriminate|]. split; [|reflexivity].
      intros f [<-|[]]. apply (Hin _ _ Hcin).
    + rewrite <- Es.
      destruct (preferred_candidate ending
                  (filter (fun l => contains l ending = true) globbed))
        as (c & Hc & Hcin & _); [rewrite Es; discriminate|].
      rewrite Hc. intros [= <-]. split; [discriminate|]. split; [|reflexivity].
      intros f [<-|[]]. apply (Hin _ _ Hcin).
Qed.

(** ** Worked examples *)



(** C2 as stated fails: a float variable is not a literal and is
    already of kind float, yet [float(x)] allocates a [PythonFloat] node around it; and an
    integer literal at the default precision is rebuilt, not returned. *)
Lemma cast_of_float_variable_allocates :
  let x : @node pynum := Var (Variable_ "x" (scalar_sig NativeFloat (-1)) false None) in
  let k : @node pynum := LiteralInteger 7 (-1) in
  is_Literal x = false
  /\ node_dtype operator_untyped x = Ok NativeFloat
  /\ PythonFloat_new PyInt pynum_float x = Ok (Fresh (PythonFloat x))
  /\ PythonFloat_new PyInt pynum_float x <> Ok (Existing x)
  /\ PythonInt_new k = Fresh k
  /\ PythonInt_new k <> Existing k.
Proof.
  cbv zeta. repeat split; try reflexivity; discriminate.
Qed.

(** C2, on inputs: the three casts of a float variable, and [float]
    of the float literal 2.0 at precision 4. *)
Lemma casts_on_a_float_variable :
  let x : @node pynum := Var (Variable_ "x" (scalar_sig NativeFloat (-1)) false None) in
  let two : pynum := PyFloat (double_of_Z 2) in
  PythonFloat_new PyInt pynum_float x = Ok (Fresh (PythonFloat x))
  /\ PythonInt_new x = Fresh (PythonInt x)
  /\ PythonBool_new x = Fresh (PythonBool x)
  /\ PythonFloat_new PyInt pynum_float (LiteralFloat two 4)
     = Ok (Fresh (LiteralFloat two (-1)))
  /\ PythonFloat_new PyInt pynum_float (LiteralFloat two (-1))
     = Ok (Existing (LiteralFloat two (-1))).
Proof.
  cbv zeta.
  destruct (casts_on_literals_and_operands PyInt pynum_float)
    as (Hsame & Hprec & _ & Hother & Hint & Hbool).
  split; [apply Hother; discriminate|].
  split; [apply (Hint (Var (Variable_ "x" (scalar_sig NativeFloat (-1)) false None)))|].
  split; [apply (Hbool (Var (Variable_ "x" (scalar_sig NativeFloat (-1)) false None)))|].
  split; [apply (Hprec (PyFloat (double_of_Z 2)) 4); discriminate|].
  apply Hsame. split; [reflexivity|]. eexists. reflexivity.
Defined.

(** C10, on inputs: [bool(x)] for an optional argument [x], and
    [bool(y)] for an argument [y] that is not optional. *)
Lemma PythonBool_new_on_optional :
  let x : @node pynum := Var (Variable_ "x" (scalar_sig NativeInteger (-1)) true None) in
  let y : @node pynum := Var (Variable_ "y" (scalar_sig NativeInteger (-1)) false None) in
  PythonBool_new x = Fresh (PyccelAnd (PyccelIsNot x Nil) (PythonBool x))
  /\ bool_value (fun _ => false) (fun _ => true) (node_of (PythonBool_new x)) = Some false
  /\ PythonBool_new y = Fresh (PythonBool y).
Proof.
  cbv zeta.
  pose proof (PythonBool_new_guards_optional operator_untyped
    (Var (Variable_ "x" (scalar_sig NativeInteger (-1)) true None) : @node pynum)) as [Hx _].
  pose proof (PythonBool_new_guards_optional operator_untyped
    (Var (Variable_ "y" (scalar_sig NativeInteger (-1)) false None) : @node pynum)) as [_ Hy].
  destruct (Hx eq_refl) as [H1 H2].
  destruct (Hy ltac:(discriminate)) as [H3 _].
  split; [exact H1|]. split; [apply H2; reflexivity | exact H3].
Defined.

(** C5 as stated fails: three empty tuples agree in kind, precision, rank and order, yet
    the list of them is rejected: their kind is the generic one. *)
Lemma list_of_empty_tuples_rejected :
  let s : typesig (@node pynum) := TypeSig NativeGeneric 0 0%nat None None None in
  let e : @node pynum := PythonTuple [] (Some (false, s)) in
  PythonTuple_init operator_untyped final_precision_8 Semantic [] = Ok e
  /\ map_m (typed operator_untyped) [e; e; e] = Ok [s; s; s]
  /\ pairwise_identical final_precision_8 [s; s; s]
  /\ PythonList_init operator_untyped final_precision_8 Semantic [e; e; e]
     = Raise (TypeError "Can't create an inhomogeneous list").
Proof.
  cbv zeta. repeat split; try reflexivity;
    destruct H as [<-|[<-|[<-|[]]]]; destruct H0 as [<-|[<-|[<-|[]]]]; reflexivity.
Qed.

(** C5, on an input: an integer scalar, a float scalar and a float
    array of rank 1:
    the list is rejected, the tuple has shape [(3, None)]. *)
Lemma aggregate_of_mixed_elements :
  let i : @node pynum := Var (Variable_ "i" (scalar_sig NativeInteger (-1)) false None) in
  let f : @node pynum := Var (Variable_ "f" (scalar_sig NativeFloat (-1)) false None) in
  let a : @node pynum :=
    Var (Variable_ "a" (TypeSig NativeFloat (-1) 1%nat
                          (Some [Some (LiteralInteger 4 (-1))]) None (Some NativeFloat))
           false None) in
  PythonList_init operator_untyped final_precision_8 Semantic [i; f; a]
  = Raise (TypeError "Can't create an inhomogeneous list")
  /\ exists t,
      PythonTuple_init operator_untyped final_precision_8 Semantic [i; f; a] = Ok t
      /\ is_homogeneous t = Ok false
      /\ node_shape operator_untyped t
         = Ok (Some [Some (LiteralInteger 3 (-1)); None]).
Proof.
  cbv zeta.
  edestruct (aggregate_homogeneity_law operator_untyped final_precision_8
    (Var (Variable_ "i" (scalar_sig NativeInteger (-1)) false None) : @node pynum)
    [Var (Variable_ "f" (scalar_sig NativeFloat (-1)) false None);
     Var (Variable_ "a" (TypeSig NativeFloat (-1) 1%nat
                           (Some [Some (LiteralInteger 4 (-1))]) None (Some NativeFloat))
            false None)]) as (Hlist & _ & Htuple).
  { reflexivity. }
  { repeat constructor; intros Hr; [contradiction Hr; reflexivity ..| discriminate]. }
  assert (Hno : forall P : Prop,
             P /\ pairwise_identical final_precision_8
                    [scalar_sig NativeInteger (-1); scalar_sig NativeFloat (-1);
                     TypeSig NativeFloat (-1) 1%nat
                       (Some [Some (@LiteralInteger pynum 4 (-1))]) None
                       (Some NativeFloat)] -> False).
  { intros P [_ Hp].
    destruct (Hp (scalar_sig NativeInteger (-1)) (scalar_sig NativeFloat (-1)))
      as (Hd & _); [left; reflexivity | right; left; reflexivity | discriminate Hd]. }
  split; [apply (proj2 Hlist); exact (Hno _)|].
  destruct (Htuple (Hno _)) as (t & Ht & Hh & Hs).
  exists t. split; [exact Ht|]. split; [exact Hh|].
  apply Hs. intros Hr.
  specialize (Hr (scalar_sig NativeInteger (-1))
                 (TypeSig NativeFloat (-1) 1%nat
                    (Some [Some (LiteralInteger 4 (-1))]) None (Some NativeFloat))).
  discriminate Hr; [left; reflexivity | right; right; left; reflexivity].
Defined.

(** C6, on an input: two float arrays of shape [(3,)]: the tuple and the list have
    shape [(2, 3)], rank 2 and row-major order. *)
Lemma aggregate_of_two_arrays :
  let sa : typesig (@node pynum) :=
    TypeSig NativeFloat (-1) 1%nat (Some [Some (LiteralInteger 3 (-1))]) None
      (Some NativeFloat) in
  let a := Var (Variable_ "a" sa false None) in
  let b := Var (Variable_ "b" sa false None) in
  let shp := Some [Some (LiteralInteger 2 (-1)); Some (LiteralInteger 3 (-1))] in
  exists t l,
    PythonTuple_init operator_untyped final_precision_8 Semantic [a; b] = Ok t
    /\ PythonList_init operator_untyped final_precision_8 Semantic [a; b] = Ok l
    /\ is_homogeneous t = Ok true /\ is_homogeneous l = Ok true
    /\ node_shape operator_untyped t = Ok shp
    /\ node_rank operator_untyped t = Ok 2%nat
    /\ node_order operator_untyped t = Ok (Some order_C)
    /\ node_shape operator_untyped l = Ok shp
    /\ node_rank operator_untyped l = Ok 2%nat
    /\ node_order operator_untyped l = Ok (Some order_C).
Proof.
  cbv zeta.
  apply (homogeneous_aggregate_shape operator_untyped final_precision_8
           (Var (Variable_ "a"
              (TypeSig NativeFloat (-1) 1%nat (Some [Some (LiteralInteger 3 (-1))]) None
                 (Some NativeFloat)) false None) : @node pynum)
           [Var (Variable_ "b"
              (TypeSig NativeFloat (-1) 1%nat (Some [Some (LiteralInteger 3 (-1))]) None
                 (Some NativeFloat)) false None)]
           _ [Some (LiteralInteger 3 (-1))] eq_refl).
  - repeat constructor; discriminate.
  - intros s s' [<-|[<-|[]]] [<-|[<-|[]]]; repeat split.
  - repeat constructor.
Defined.

(** C7, the code at the failing input: [max(i, f)] and [min(i, f)]
    on an integer and a float are both
    rejected, but only the message of [min] names the kinds and
    precisions; the one of [max] carries the unformatted template.
    [max(i, j)] on two integers has the integer kind. *)
Lemma extremum_messages :
  let i : @node pynum := Var (Variable_ "i" (scalar_sig NativeInteger (-1)) false None) in
  let j : @node pynum := Var (Variable_ "j" (scalar_sig NativeInteger (-1)) false None) in
  let f : @node pynum := Var (Variable_ "f" (scalar_sig NativeFloat (-1)) false None) in
  PythonMax_init operator_untyped final_precision_8 Semantic [Node i; Node f]
  = Raise (PyccelError
      "Cannot determine final dtype of 'max' call with arguments of different types ({xi.dtype}({xi.precision}), {xi.dtype}({xi.precision})). Please cast arguments to the desired dtype")
  /\ PythonMin_init operator_untyped final_precision_8 datatype_name Semantic
       [Node i; Node f]
     = Raise (PyccelError
         "Cannot determine final dtype of 'min' call with arguments of different types (int(-1), float(-1)). Please cast arguments to the desired dtype")
  /\ exists t,
       PythonTuple_init operator_untyped final_precision_8 Semantic [i; j] = Ok t
       /\ PythonMax_init operator_untyped final_precision_8 Semantic [Node i; Node j]
          = Ok (PythonMax t NativeInteger (-1) NativeHomogeneousTuple)
       /\ PythonMin_init operator_untyped final_precision_8 datatype_name Semantic
            [Node i; Node j]
          = Ok (PythonMin t NativeInteger (-1) NativeHomogeneousTuple).
Proof.
  cbv zeta. split; [vm_compute; reflexivity|]. split; [vm_compute; reflexivity|].
  eexists. split; [reflexivity|]. split; reflexivity.
Qed.

(** C8 as stated fails: [range(5)] and [range(10)] are not typed
    nodes, they have no
    shape, and a zip over them cannot be given a length. *)
Lemma zip_of_ranges_has_no_length :
  let r5 : @node pynum :=
    PythonRange (LiteralInteger 0 (-1)) (LiteralInteger 5 (-1)) (LiteralInteger 1 (-1)) in
  let r10 : @node pynum :=
    PythonRange (LiteralInteger 0 (-1)) (LiteralInteger 10 (-1)) (LiteralInteger 1 (-1)) in
  PythonRange_init [LiteralInteger 5 (-1)] = Ok r5
  /\ PythonRange_init [LiteralInteger 10 (-1)] = Ok r10
  /\ PythonZip_init operator_untyped Semantic [r5; r10] = Raise AttributeError.
Proof. cbv zeta. repeat split. Qed.

(** C8, on an input: a zip over arrays of first dimensions 5, a size
    [n] only known at run time, and 10 has length 5. *)
Lemma zip_of_arrays :
  let array name d : @node pynum :=
    Var (Variable_ name (TypeSig NativeFloat (-1) 1%nat (Some [Some d]) None
                           (Some NativeFloat)) false None) in
  let n : @node pynum := Var (Variable_ "n" (scalar_sig NativeInteger (-1)) false None) in
  exists z,
    PythonZip_init operator_untyped Semantic
      [array "a" (LiteralInteger 5 (-1)); array "b" n; array "c" (LiteralInteger 10 (-1))]
    = Ok z
    /\ zip_length z = Ok (IntLength 5).
Proof.
  cbv zeta.
  edestruct (zip_length_law operator_untyped
    (Var (Variable_ "a" (TypeSig NativeFloat (-1) 1%nat
            (Some [Some (LiteralInteger 5 (-1))]) None (Some NativeFloat)) false None)
       : @node pynum)
    [Var (Variable_ "b" (TypeSig NativeFloat (-1) 1%nat
            (Some [Some (Var (Variable_ "n" (scalar_sig NativeInteger (-1)) false None))])
            None (Some NativeFloat)) false None);
     Var (Variable_ "c" (TypeSig NativeFloat (-1) 1%nat
            (Some [Some (LiteralInteger 10 (-1))]) None (Some NativeFloat)) false None)])
    as (z & Hz & Hlen).
  { simpl. lia. }
  { reflexivity. }
  exists z. split; [exact Hz|].
  simpl in Hlen. destruct Hlen as (m & Hm & Hin & Hle).
  assert (m = 5) as ->
    by (inversion Hle; subst; destruct Hin as [<-|[<-|[]]]; [reflexivity | lia]).
  exact Hm.
Defined.



Lemma grant_name_granted {N} (used : stringset) (d : datatype) (n : string) :
  unused used n -> name (fst (grant_name (N := N) used d n)) = n.
Proof.
  unfold unused, grant_name. cbn [fst name].
  unfold fresh_string_of_set, fresh_string.
  intros Hn. destruct (mapset.mapset_car used !! n) as [[]|] eqn:E; [|reflexivity].
  exfalso. apply Hn. exact E.
Qed.

Lemma grant_name_preserved {N} (used : stringset) (d : datatype) (n m : string) :
  unused used n -> unused used m -> m <> n ->
  unused (snd (grant_name (N := N) used d n)) m.
Proof.
  intros Hn Hm Hne. pose proof (grant_name_granted (N := N) used d n Hn) as Hg.
  unfold unused, grant_name in *. cbn [fst snd name] in *. rewrite Hg.
  apply not_elem_of_union. split; [|exact Hm].
  apply not_elem_of_singleton. exact Hne.
Qed.

(** C3, on inputs: the wrapper of [arr], an array of rank 2, in an
    empty scope, and the wrapper of the result [out] of rank 1. *)
Lemma binding_descriptors_of_arr :
  let pointer : variable (@node pynum) :=
    Variable_ "arr" (scalar_sig BindCPointer (-1)) false None in
  let arr : variable (@node pynum) :=
    Variable_ "arr" (TypeSig NativeFloat 8 2%nat None (Some order_C) (Some NativeFloat))
      false None in
  let out : variable (@node pynum) :=
    Variable_ "out" (TypeSig NativeFloat 8 1%nat None None (Some NativeFloat))
      false None in
  let w := fst (BindCFunctionDefArgument_init stringset grant_name pointer ∅ arr true) in
  let w' := fst (BindCFunctionDefResult_init stringset grant_name pointer out ∅) in
  length (get_all_function_def_arguments w) = 5%nat
  /\ map name (arg_shape w) = ["arr_shape_1"; "arr_shape_2"]
  /\ map name (arg_strides w) = ["arr_stride_1"; "arr_stride_2"]
  /\ length (get_all_function_def_results w') = 2%nat
  /\ map name (res_shape w') = ["out_shape_1"].
Proof.
  cbv zeta.
  destruct (binding_descriptors stringset grant_name unused
              grant_name_granted grant_name_preserved
              (Variable_ "arr" (scalar_sig BindCPointer (-1)) false None
                 : variable (@node pynum))
              (Variable_ "arr"
                 (TypeSig NativeFloat 8 2%nat None (Some order_C) (Some NativeFloat))
                 false None)
              (Variable_ "arr" (scalar_sig BindCPointer (-1)) false None)
              (Variable_ "out"
                 (TypeSig NativeFloat 8 1%nat None None (Some NativeFloat)) false None)
              ∅ true)
    as ((_ & _ & _ & Hlen & Hnames) & (_ & _ & Hlen' & Hnames')).
  destruct Hnames as [Hsh Hst].
  { intros i _. unfold unused. split; apply not_elem_of_empty. }
  split; [exact Hlen|]. split; [exact Hsh|]. split; [exact Hst|].
  split; [exact Hlen'|]. apply Hnames'.
  intros i _. unfold unused. apply not_elem_of_empty.
Defined.

(** C3 as stated fails: in a scope where the name [arr_shape_1] is
    already in use, the first shape variable of the wrapper of [arr]
    gets another name; the number of descriptors is unchanged. *)
Lemma binding_names_collide :
  let pointer : variable (@node pynum) :=
    Variable_ "arr" (scalar_sig BindCPointer (-1)) false None in
  let arr : variable (@node pynum) :=
    Variable_ "arr" (TypeSig NativeFloat 8 2%nat None (Some order_C) (Some NativeFloat))
      false None in
  let scope : stringset := {[ "arr_shape_1" ]} in
  let w := fst (BindCFunctionDefArgument_init stringset grant_name pointer scope arr true) in
  length (get_all_function_def_arguments w) = 5%nat
  /\ ~ unused scope "arr_shape_1"
  /\ map name (arg_shape w) = ["arr_shape_10"; "arr_shape_2"]
  /\ map name (arg_shape w) <> ["arr_shape_1"; "arr_shape_2"].
Proof.
  cbv zeta. split; [|split; [|split]].
  - vm_compute. reflexivity.
  - unfold unused. intros H. apply H. apply elem_of_singleton. reflexivity.
  - vm_compute. reflexivity.
  - vm_compute. discriminate.
Qed.

(** C4 as stated fails: for the wrapper of an array passed as
    modifiable, the flag reported for the data is false. *)
Lemma inout_of_array_ignores_caller :
  let pointer : variable (@node pynum) :=
    Variable_ "arr" (scalar_sig BindCPointer (-1)) false None in
  let arr : variable (@node pynum) :=
    Variable_ "arr" (TypeSig NativeFloat 8 2%nat None (Some order_C) (Some NativeFloat))
      false None in
  let w := fst (BindCFunctionDefArgument_init stringset grant_name pointer ∅ arr true) in
  arg_base_inout w = true
  /\ inout w = InoutList [false; false; false; false; false]
  /\ inout w <> InoutFlag true
  /\ forall flags, inout w = InoutList flags -> head flags <> Some true.
Proof.
  cbv zeta. unfold BindCFunctionDefArgument_init.
  repeat match goal with |- context [let (_, _) := ?t in _] => destruct t end.
  cbn [fst]. unfold inout. cbn.
  split; [reflexivity|]. split; [reflexivity|]. split; [discriminate|].
  intros flags [= <-]. discriminate.
Qed.

(** C4, on inputs: the [inout] of the wrapper of a scalar passed as
    modifiable, and of the wrapper of an array of rank 2. *)
Lemma inout_of_scalar_and_array :
  let x : variable (@node pynum) :=
    Variable_ "x" (scalar_sig NativeFloat 8) false None in
  let arr : variable (@node pynum) :=
    Variable_ "arr" (TypeSig NativeFloat 8 2%nat None (Some order_C) (Some NativeFloat))
      false None in
  inout (fst (BindCFunctionDefArgument_init stringset grant_name x ∅ x true)) = InoutFlag true
  /\ inout (fst (BindCFunctionDefArgument_init stringset grant_name arr ∅ arr true))
     = InoutList [false; false; false; false; false].
Proof.
  cbv zeta. split.
  - apply (inout_of_wrapper stringset grant_name). reflexivity.
  - apply (inout_of_wrapper stringset grant_name). discriminate.
Defined.

(** X2, on inputs: [complex(x, 1)] for a float variable [x], and
    [complex(z, w)] for two complex variables. *)
Lemma complex_of_variable_and_literal :
  let x : @node pynum := Var (Variable_ "x" (scalar_sig NativeFloat (-1)) false None) in
  let z : @node pynum := Var (Variable_ "z" (scalar_sig NativeComplex (-1)) false None) in
  let w : @node pynum := Var (Variable_ "w" (scalar_sig NativeComplex (-1)) false None) in
  let j : @node pynum :=
    LiteralComplex (PyFloat (double_of_Z 0)) (PyFloat (double_of_Z 1)) (-1) in
  PythonComplex_new PyInt pynum_float pynum_add pynum_sub operator_untyped
    x (Some (LiteralInteger 1 (-1)))
  = Ok (Fresh (PythonComplex x (LiteralInteger 1 (-1))))
  /\ PythonComplex_new PyInt pynum_float pynum_add pynum_sub operator_untyped z (Some w)
     = Ok (Fresh (PyccelAdd z (PyccelMul w j))).
Proof.
  cbv zeta. split.
  - apply (PythonComplex_new_on_typed PyInt pynum_float pynum_add pynum_sub
             operator_untyped
             (Var (Variable_ "x" (scalar_sig NativeFloat (-1)) false None))
             (LiteralInteger 1 (-1)) _ _ _ _ eq_refl eq_refl eq_refl eq_refl).
    reflexivity.
  - apply (PythonComplex_new_on_typed PyInt pynum_float pynum_add pynum_sub
             operator_untyped
             (Var (Variable_ "z" (scalar_sig NativeComplex (-1)) false None))
             (Var (Variable_ "w" (scalar_sig NativeComplex (-1)) false None))
             _ _ _ _ eq_refl eq_refl eq_refl eq_refl).
    reflexivity.
Defined.

(** X3, on an input: [abs] of a complex array of shape [(5,)], taken
    twice. *)
Lemma abs_of_complex_array :
  let shp : option (list (option (@node pynum))) := Some [Some (LiteralInteger 5 (-1))] in
  let c : @node pynum :=
    Var (Variable_ "c" (TypeSig NativeComplex (-1) 1%nat shp None (Some NativeComplex))
           false None) in
  let a := PythonAbs c (TypeSig NativeFloat (-1) 1%nat shp None (Some NativeComplex)) in
  PythonAbs_init operator_untyped c = Ok a
  /\ exists a', PythonAbs_init operator_untyped a = Ok a'
                /\ sig_of operator_untyped a' = sig_of operator_untyped a.
Proof.
  cbv zeta. split; [reflexivity|].
  exact (proj2 (PythonAbs_init_signature operator_untyped
                  (Var (Variable_ "c"
                          (TypeSig NativeComplex (-1) 1%nat
                             (Some [Some (LiteralInteger 5 (-1))]) None (Some NativeComplex))
                          false None) : @node pynum) _ eq_refl)).
Defined.

(** X4, on an input: the accessors of a boolean variable. *)
Lemma accessors_of_a_boolean :
  let b : @node pynum := Var (Variable_ "b" (scalar_sig NativeBool (-1)) false None) in
  PythonReal_new operator_untyped b = Ok (Simplified (Fresh (PythonInt b)))
  /\ PythonConjugate_new operator_untyped b = Ok (Simplified (Fresh (PythonInt b))).
Proof.
  cbv zeta.
  destruct (accessors_of_a_real_operand operator_untyped
              (Var (Variable_ "b" (scalar_sig NativeBool (-1)) false None) : @node pynum)
              NativeBool eq_refl ltac:(discriminate)) as (H1 & _ & H3 & _).
  split; [exact (H3 eq_refl)|]. rewrite <- H1. exact (H3 eq_refl).
Defined.

(** X5, on an input: the conjugate of a complex variable is of complex
    kind. *)
Lemma conjugate_of_complex_variable :
  let z : @node pynum := Var (Variable_ "z" (scalar_sig NativeComplex (-1)) false None) in
  PythonConjugate_new operator_untyped z = Ok (Accessor z)
  /\ exists d, accessor_dtype operator_untyped NativeComplex (Accessor z) = Ok d
               /\ d <> NativeBool.
Proof.
  cbv zeta. split; [reflexivity|].
  destruct (proj2 (accessor_kinds operator_untyped
                     (Var (Variable_ "z" (scalar_sig NativeComplex (-1)) false None)
                        : @node pynum) (Accessor _)) eq_refl) as (d & Hd & Hb & _).
  exists d. split; [exact Hd | exact Hb].
Defined.

(** X6, on an input: the tuple of two float arrays of shape [(3,)]
    has rank 2, the length of its shape. *)
Lemma tuple_of_two_arrays_is_well_shaped :
  let sa : typesig (@node pynum) :=
    TypeSig NativeFloat (-1) 1%nat (Some [Some (LiteralInteger 3 (-1))]) None
      (Some NativeFloat) in
  let a := Var (Variable_ "a" sa false None) in
  let b := Var (Variable_ "b" sa false None) in
  exists t st,
    PythonTuple_init operator_untyped final_precision_8 Semantic [a; b] = Ok t
    /\ sig_of operator_untyped t = Some st
    /\ well_shaped st
    /\ rank st = 2%nat.
Proof.
  cbv zeta.
  destruct (aggregate_keeps_well_shaped operator_untyped final_precision_8
              (Var (Variable_ "a"
                 (TypeSig NativeFloat (-1) 1%nat (Some [Some (LiteralInteger 3 (-1))]) None
                    (Some NativeFloat)) false None) : @node pynum)
              [Var (Variable_ "b"
                 (TypeSig NativeFloat (-1) 1%nat (Some [Some (LiteralInteger 3 (-1))]) None
                    (Some NativeFloat)) false None)]
              _ eq_refl) as (t & st & Ht & Hs & Hw & Hr & _).
  { repeat (constructor; [reflexivity|]). constructor. }
  exists t, st. split; [exact Ht|]. split; [exact Hs|]. split; [exact Hw | exact Hr].
Defined.

(** X7, on an input: the elements of the tuple of two float arrays. *)
Lemma elements_of_a_tuple_of_arrays :
  let sa : typesig (@node pynum) :=
    TypeSig NativeFloat (-1) 1%nat (Some [Some (LiteralInteger 3 (-1))]) None
      (Some NativeFloat) in
  let st : typesig (@node pynum) :=
    TypeSig NativeFloat (-1) 2%nat
      (Some [Some (LiteralInteger 2 (-1)); Some (LiteralInteger 3 (-1))])
      (Some order_C) (Some NativeHomogeneousTuple) in
  Forall (fun s => dtype s = dtype st
                   /\ final_precision_8 (dtype s) (precision s)
                      = final_precision_8 (dtype st) (precision st)
                   /\ S (rank s) = rank st) [sa; sa].
Proof.
  cbv zeta.
  pose (sa := TypeSig NativeFloat (-1) 1%nat (Some [Some (LiteralInteger 3 (-1))]) None
                (Some NativeFloat) : typesig (@node pynum)).
  pose (a := Var (Variable_ "a" sa false None)).
  pose (b := Var (Variable_ "b" sa false None)).
  apply (homogeneous_tuple_elements operator_untyped final_precision_8 a [b] [sa; sa]
           (PythonTuple [a; b]
              (Some (true,
                     TypeSig NativeFloat (-1) 2%nat
                       (Some [Some (LiteralInteger 2 (-1)); Some (LiteralInteger 3 (-1))])
                       (Some order_C) (Some NativeHomogeneousTuple))))).
  - reflexivity.
  - repeat (constructor; [reflexivity|]). constructor.
  - reflexivity.
  - reflexivity.
  - reflexivity.
Defined.

(** X8, on an input: the tuples [(i, f)] and [(f, i)] of an integer
    and a float. *)
Lemma tuples_of_swapped_elements :
  let i : @node pynum := Var (Variable_ "i" (scalar_sig NativeInteger (-1)) false None) in
  let f : @node pynum := Var (Variable_ "f" (scalar_sig NativeFloat (-1)) false None) in
  exists t t',
    PythonTuple_init operator_untyped final_precision_8 Semantic [i; f] = Ok t
    /\ PythonTuple_init operator_untyped final_precision_8 Semantic [f; i] = Ok t'
    /\ is_homogeneous t = is_homogeneous t'.
Proof.
  cbv zeta.
  destruct (homogeneity_order_independent operator_untyped final_precision_8
              (Var (Variable_ "i" (scalar_sig NativeInteger (-1)) false None) : @node pynum)
              [Var (Variable_ "f" (scalar_sig NativeFloat (-1)) false None)]
              [Var (Variable_ "f" (scalar_sig NativeFloat (-1)) false None);
               Var (Variable_ "i" (scalar_sig NativeInteger (-1)) false None)]
              _ (perm_swap _ _ _) eq_refl) as (t & t' & Ht & Ht' & Hh & _).
  { repeat (constructor; [reflexivity|]). constructor. }
  exists t, t'. split; [exact Ht|]. split; [exact Ht' | exact Hh].
Defined.

(** X9, on an input: [len((i, f))] is the literal 2. *)
Lemma len_of_a_mixed_tuple :
  let i : @node pynum := Var (Variable_ "i" (scalar_sig NativeInteger (-1)) false None) in
  let f : @node pynum := Var (Variable_ "f" (scalar_sig NativeFloat (-1)) false None) in
  exists t,
    PythonTuple_init operator_untyped final_precision_8 Semantic [i; f] = Ok t
    /\ PythonLen_new operator_untyped t
       = Ok (ShapeComponent (Some (LiteralInteger 2 (-1)))).
Proof.
  cbv zeta. eexists. split; [reflexivity|].
  apply (proj1 (proj2 (len_of_built_tuple operator_untyped final_precision_8
                         [Var (Variable_ "i" (scalar_sig NativeInteger (-1)) false None);
                          Var (Variable_ "f" (scalar_sig NativeFloat (-1)) false None)]
                         _ eq_refl))).
  - discriminate.
  - reflexivity.
Defined.

(** X10, on an input: [max] and [min] of the list [[1, 2]]. *)
Lemma extremum_of_the_list_1_2 :
  exists (l : @node pynum) d p,
    PythonList_init operator_untyped final_precision_8 Semantic
      [LiteralInteger 1 (-1); LiteralInteger 2 (-1)] = Ok l
    /\ PythonMax_init operator_untyped final_precision_8 Semantic [Node l]
       = Ok (PythonMax l d p NativeHomogeneousList)
    /\ PythonMin_init operator_untyped final_precision_8 datatype_name Semantic [Node l]
       = Ok (PythonMin l d p NativeHomogeneousList).
Proof.
  eexists.
  destruct (extremum_of_a_list operator_untyped final_precision_8 datatype_name
              [LiteralInteger 1 (-1); LiteralInteger 2 (-1) : @node pynum] _ Semantic eq_refl)
    as (d & p & _ & _ & Hmax & Hmin).
  exists d, p. split; [reflexivity|]. split; [exact Hmax | exact Hmin].
Defined.

(** X11, on an input: [max(i, j)] and [max((i, j))] with a Python
    tuple. *)
Lemma extremum_of_two_integers :
  let i : @node pynum := Var (Variable_ "i" (scalar_sig NativeInteger (-1)) false None) in
  let j : @node pynum := Var (Variable_ "j" (scalar_sig NativeInteger (-1)) false None) in
  PythonMax_init operator_untyped final_precision_8 Semantic [Node i; Node j]
  = PythonMax_init operator_untyped final_precision_8 Semantic [Sequence [i; j]]
  /\ PythonMin_init operator_untyped final_precision_8 datatype_name Semantic
       [Node i; Node j]
     = PythonMin_init operator_untyped final_precision_8 datatype_name Semantic
         [Sequence [i; j]].
Proof.
  cbv zeta.
  apply (proj1 (extremum_packs_its_arguments operator_untyped final_precision_8
                  datatype_name Semantic
                  [Var (Variable_ "i" (scalar_sig NativeInteger (-1)) false None);
                   Var (Variable_ "j" (scalar_sig NativeInteger (-1)) false None)])).
  discriminate.
Defined.

(** X12, on an input: [max(i, j)] and [min(i, j)] are built over the
    same tuple. *)
Lemma max_and_min_of_two_integers :
  let i : @node pynum := Var (Variable_ "i" (scalar_sig NativeInteger (-1)) false None) in
  let j : @node pynum := Var (Variable_ "j" (scalar_sig NativeInteger (-1)) false None) in
  exists t d p ct,
    PythonMax_init operator_untyped final_precision_8 Semantic [Node i; Node j]
    = Ok (PythonMax t d p ct)
    /\ PythonMin_init operator_untyped final_precision_8 datatype_name Semantic
         [Node i; Node j]
       = Ok (PythonMin t d p ct).
Proof.
  cbv zeta.
  destruct (proj1 (max_and_min_agree operator_untyped final_precision_8 datatype_name
                     Semantic
                     [Node (Var (Variable_ "i" (scalar_sig NativeInteger (-1)) false None)
                              : @node pynum);
                      Node (Var (Variable_ "j" (scalar_sig NativeInteger (-1)) false None))])
              _ eq_refl) as (t & d & p & ct & Hn & Hmin).
  exists t, d, p, ct. split; [rewrite <- Hn; reflexivity | exact Hmin].
Defined.

(** X13, on an input: the zips over arrays of first dimensions 5 and
    10, in both orders. *)
Lemma zip_of_swapped_arrays :
  let array name d : @node pynum :=
    Var (Variable_ name (TypeSig NativeFloat (-1) 1%nat (Some [Some d]) None
                           (Some NativeFloat)) false None) in
  exists z',
    PythonZip_init operator_untyped Semantic
      [array "c" (LiteralInteger 10 (-1)); array "a" (LiteralInteger 5 (-1))] = Ok z'
    /\ zip_length z' = Ok (IntLength 5).
Proof.
  cbv zeta.
  apply (zip_length_order_independent operator_untyped
           [Var (Variable_ "a" (TypeSig NativeFloat (-1) 1%nat
                   (Some [Some (LiteralInteger 5 (-1))]) None (Some NativeFloat)) false None)
              : @node pynum;
            Var (Variable_ "c" (TypeSig NativeFloat (-1) 1%nat
                   (Some [Some (LiteralInteger 10 (-1))]) None (Some NativeFloat)) false None)]
           _ _ 5 (perm_swap _ _ _) eq_refl eq_refl).
Defined.

(** X15, on an input: a function [f] with one array argument of
    rank 1. *)
Lemma flattening_of_one_array_argument :
  let v name : variable (@node pynum) :=
    Variable_ name (scalar_sig NativeInteger (-1)) false None in
  let w := {| arg_var := v "arr"; arg_base_inout := false; arg_rank := 1;
              arg_shape := [v "arr_shape_1"]; arg_strides := [v "arr_stride_1"];
              arg_original_arg_var := v "arr" |} in
  exists f flat_args,
    BindCFunctionDef_init string_lower unit "f" [ArgSelf w] [] tt = Passed _ f
    /\ arguments unit f = Ok flat_args
    /\ filter (fun a => is_BindCFunctionDefArgument a = true) flat_args
       = bind_c_arguments unit f.
Proof.
  cbv zeta. eexists.
  destruct (proj2 (BindCFunctionDef_flattening_round_trip string_lower unit "f"
                     [ArgSelf
                        {| arg_var := Variable_ "arr" (scalar_sig NativeInteger (-1))
                                        false None : variable (@node pynum);
                           arg_base_inout := false; arg_rank := 1;
                           arg_shape := [Variable_ "arr_shape_1"
                                           (scalar_sig NativeInteger (-1)) false None];
                           arg_strides := [Variable_ "arr_stride_1"
                                             (scalar_sig NativeInteger (-1)) false None];
                           arg_original_arg_var :=
                             Variable_ "arr" (scalar_sig NativeInteger (-1)) false None |}]
                     [] tt) _ eq_refl) as (fa & fr & Ha & _ & Hfa & _).
  exists fa. split; [reflexivity|]. split; [exact Ha | exact Hfa].
Defined.

(** X16, on an input: the same function has three flattened
    arguments. *)
Lemma flattened_length_of_one_array_argument :
  let v name : variable (@node pynum) :=
    Variable_ name (scalar_sig NativeInteger (-1)) false None in
  let w := {| arg_var := v "arr"; arg_base_inout := false; arg_rank := 1;
              arg_shape := [v "arr_shape_1"]; arg_strides := [v "arr_stride_1"];
              arg_original_arg_var := v "arr" |} in
  exists f flat_args,
    BindCFunctionDef_init string_lower unit "f" [ArgSelf w] [] tt = Passed _ f
    /\ arguments unit f = Ok flat_args
    /\ length flat_args = 3%nat.
Proof.
  cbv zeta. eexists.
  destruct (BindCFunctionDef_flattened_lengths string_lower unit "f"
              [ArgSelf
                 {| arg_var := Variable_ "arr" (scalar_sig NativeInteger (-1))
                                 false None : variable (@node pynum);
                    arg_base_inout := false; arg_rank := 1;
                    arg_shape := [Variable_ "arr_shape_1"
                                    (scalar_sig NativeInteger (-1)) false None];
                    arg_strides := [Variable_ "arr_stride_1"
                                      (scalar_sig NativeInteger (-1)) false None];
                    arg_original_arg_var :=
                      Variable_ "arr" (scalar_sig NativeInteger (-1)) false None |}]
              [] tt _ eq_refl) as (fa & fr & Ha & _ & Hla & _).
  { constructor; [split; reflexivity | constructor]. }
  exists fa. split; [reflexivity|]. split; [exact Ha | exact Hla].
Defined.

(** X17, on an input: wrapping [arr] of rank 2 in an empty scope
    leaves the name [n] free. *)
Lemma wrapper_of_arr_leaves_n_free :
  let arr : variable (@node pynum) :=
    Variable_ "arr" (TypeSig NativeFloat 8 2%nat None (Some order_C) (Some NativeFloat))
      false None in
  unused (snd (BindCFunctionDefArgument_init stringset grant_name arr ∅ arr true)) "n".
Proof.
  cbv zeta.
  apply (wrapper_leaves_other_names_free stringset grant_name unused
           grant_name_granted grant_name_preserved).
  - intros i _. unfold unused. split; apply not_elem_of_empty.
  - unfold unused. apply not_elem_of_empty.
  - intros i Hi. cbn [ty rank] in Hi.
    destruct i as [|[|i]]; [split; discriminate | split; discriminate | lia].
Defined.

(** X18, on an input: [tuple] of a list, and [tuple] of the result. *)
Lemma tuple_of_a_tuple_of_a_list :
  let l : @node pynum :=
    PythonList [LiteralInteger 1 (-1); LiteralInteger 2 (-1)]
      (Some (TypeSig NativeInteger (-1) 1%nat (Some [Some (LiteralInteger 2 (-1))]) None
               (Some NativeHomogeneousList))) in
  let tuple := PythonTupleFunction_new operator_untyped final_precision_8
                 (fun _ => []) (fun _ _ => Raise IndexError) (fun _ => "") in
  exists b,
    tuple Semantic l = Ok b
    /\ tuple Syntactic (node_of b) = Ok (Existing (node_of b)).
Proof.
  cbv zeta. eexists. split; [reflexivity|].
  apply (PythonTupleFunction_new_idempotent operator_untyped final_precision_8
           (fun _ => []) (fun _ _ => Raise IndexError) (fun _ => "") Semantic Syntactic
           (PythonList [LiteralInteger 1 (-1); LiteralInteger 2 (-1)]
              (Some (TypeSig NativeInteger (-1) 1%nat (Some [Some (LiteralInteger 2 (-1))])
                       None (Some NativeHomogeneousList))))).
  reflexivity.
Defined.

(** X19, on an input: [tuple([1, 2])]. *)
Lemma tuple_of_the_list_1_2 :
  exists (l t : @node pynum),
    PythonList_init operator_untyped final_precision_8 Semantic
      [LiteralInteger 1 (-1); LiteralInteger 2 (-1)] = Ok l
    /\ PythonTupleFunction_new operator_untyped final_precision_8
         (fun _ => []) (fun _ _ => Raise IndexError) (fun _ => "") Semantic l
       = Ok (Fresh t)
    /\ elements t = [LiteralInteger 1 (-1); LiteralInteger 2 (-1)]
    /\ is_homogeneous t = Ok true.
Proof.
  eexists.
  destruct (tuple_of_a_list operator_untyped final_precision_8
              (fun _ => []) (fun _ _ => Raise IndexError) (fun _ => "")
              [LiteralInteger 1 (-1); LiteralInteger 2 (-1) : @node pynum] _ eq_refl)
    as (t & sl & st & Ht & He & _ & _ & _ & _ & _ & _ & _ & Hh).
  exists t. split; [reflexivity|]. split; [exact Ht|]. split; [exact He | exact Hh].
Defined.

(** X21, on an input: [libm.so] becomes a flag, [-lm] stays. *)
Lemma flag_of_libm :
  startswith (change_to_lib_flag (lit "libm.so")) (lit "-l") = true
  /\ change_to_lib_flag (lit "-lm") = lit "-lm".
Proof.
  split.
  - apply (proj1 (proj2 (change_to_lib_flag_idempotent (lit "libm.so")))). reflexivity.
  - apply (proj1 (change_to_lib_flag_idempotent (lit "-lm"))). reflexivity.
Defined.

(** X22, on an input: the linker words
    [gcc -shared -L/usr/lib] and the library [libpython3.9.so]. *)
Lemma libs_of_linker_words :
  let ldshared := [lit "gcc"; lit "-shared"; lit "-L/usr/lib"] in
  let library := [lit "-lm"; lit "libpython3.9.so"] in
  let flags := linker_flags ldshared library in
  In (lit "python3.9") (python_libs flags)
  /\ In (lit "/usr/lib") (python_libdirs flags [] []).
Proof.
  cbv zeta.
  destruct (python_libs_of_linker_words
              [lit "gcc"; lit "-shared"; lit "-L/usr/lib"]
              [lit "-lm"; lit "libpython3.9.so"] [] [] (lit "python3.9"))
    as (_ & _ & Hlib).
  destruct (python_libs_of_linker_words
              [lit "gcc"; lit "-shared"; lit "-L/usr/lib"]
              [lit "-lm"; lit "libpython3.9.so"] [] [] (lit "/usr/lib"))
    as (_ & Hdir & _).
  split.
  - apply Hlib. left. right. right. right. left. reflexivity.
  - apply Hdir. left. right. right. left. reflexivity.
Defined.

(** X23, on an input: among [libpython3.9.so.1.0], [libpython3.9.so]
    and [libpython3.9.a] on Linux, the file ending with [.so] is
    taken. *)
Lemma python_library_on_linux :
  let globbed := [lit "/usr/lib/libpython3.9.so.1.0"; lit "/usr/lib/libpython3.9.so";
                  lit "/usr/lib/libpython3.9.a"] in
  exists l,
    find_python_library "linux" globbed (lit "3.9") [] [] [] [] [] = Dependencies [l]
    /\ endswith l (lit ".so") = true.
Proof.
  cbv zeta.
  destruct (proj1 (python_library_preference "linux"
                     [lit "/usr/lib/libpython3.9.so.1.0"; lit "/usr/lib/libpython3.9.so";
                      lit "/usr/lib/libpython3.9.a"] (lit "3.9") [] [] [] [] []
                     ltac:(discriminate)))
    as (l & Hf & _ & _ & He).
  { exists (lit "/usr/lib/libpython3.9.so"). split; [right; left; reflexivity|reflexivity]. }
  exists l. split; [exact Hf|]. apply He.
  exists (lit "/usr/lib/libpython3.9.so"). split; [right; left; reflexivity|reflexivity].
Defined.

(** X24, on an input: the dependency found on Linux is one of the
    files. *)
Lemma python_dependency_on_linux :
  let globbed := [lit "/usr/lib/libpython3.9.so.1.0"; lit "/usr/lib/libpython3.9.so";
                  lit "/usr/lib/libpython3.9.a"] in
  let files := [lit "/usr/lib/libpython3.9.so"] in
  files <> [] /\ (forall f, In f files -> In f globbed)
  /\ ("linux" <> "win32" -> length files = 1%nat).
Proof.
  cbv zeta.
  apply (python_dependencies_are_found_files "linux"
           [lit "/usr/lib/libpython3.9.so.1.0"; lit "/usr/lib/libpython3.9.so";
            lit "/usr/lib/libpython3.9.a"] (lit "3.9") [] [] [] [] []).
  reflexivity.
Defined.


(** X1, on an input: [float(float(7))] returns the literal that
    [float(7)] built. *)
Lemma float_of_float_of_7 :
  exists b,
    PythonFloat_new PyInt pynum_float (LiteralInteger 7 (-1)) = Ok b
    /\ node_of b = LiteralFloat (PyFloat (double_of_Z 7)) (-1)
    /\ PythonFloat_new PyInt pynum_float (node_of b) = Ok (Existing (node_of b)).
Proof.
  eexists. split; [reflexivity|]. split; [reflexivity|].
  apply (proj1 (casts_of_literals_are_idempotent PyInt pynum_float
                  (LiteralInteger 7 (-1)))).
  reflexivity.
Defined.
